(** * Text to ISL/ASL translator: the cache and the translation pipeline

    A shallow embedding of [cache.py] (the content-addressed, time-bounded
    translation cache and its decorator) and of the processor classes of
    [app.py] (tokenizing, tagging, SOV reordering, placeholder rendering and
    the language dispatch), followed by the properties proved about them.

    Python values are modelled as follows.
    - [str] is a list of Unicode code points (integers); [py "isl"] is the
      literal.  A code point in the surrogate range is a legal element of a
      Python string but has no UTF-8 encoding, so [utf8_encode] is partial.
    - a number is a rational; [time.time()] yields the rational value of a
      double, and a difference of floats is rounded to the nearest double
      ([round53]).
    - dictionaries with string keys are association lists in insertion
      order.
    - the file system is a finite map from paths to file contents; which
      writes fail, and how far they get, is decided by the environment.
    - a Python exception is a value of [exn]; a function that may raise
      returns a [result], and one that also reads or changes the world is a
      computation of the monad [M].
    - the Unicode tables and the NLTK library are parameters. *)

From Stdlib Require Import ZArith QArith Qround Lqa Lia List String Ascii Decimal.
From Stdlib Require Import Permutation.
From Stdlib Require DecimalZ.
From stdpp Require Import base option list gmap.
Import ListNotations.

Local Open Scope Z_scope.
Set Warnings "-register-all".

(** ** Python strings *)

Definition str := list Z.

Fixpoint py (s : string) : str :=
  match s with
  | EmptyString => []
  | String a s' => Z.of_N (N_of_ascii a) :: py s'
  end.

(** [str.encode('utf-8')] on one code point; [None] stands for
    [UnicodeEncodeError] (lone surrogates). *)
Definition utf8_encode_char (c : Z) : option (list Z) :=
  if c <? 0 then None
  else if c <? 0x80 then Some [c]
  else if c <? 0x800 then Some [0xC0 + c / 64; 0x80 + c mod 64]
  else if (0xD800 <=? c) && (c <=? 0xDFFF) then None
  else if c <? 0x10000 then
    Some [0xE0 + c / 4096; 0x80 + (c / 64) mod 64; 0x80 + c mod 64]
  else if c <? 0x110000 then
    Some [0xF0 + c / 262144; 0x80 + (c / 4096) mod 64;
          0x80 + (c / 64) mod 64; 0x80 + c mod 64]
  else None.

Fixpoint utf8_encode (s : str) : option (list Z) :=
  match s with
  | [] => Some []
  | c :: s' =>
      match utf8_encode_char c, utf8_encode s' with
      | Some bs, Some rest => Some (bs ++ rest)
      | _, _ => None
      end
  end.

(** ** MD5 (RFC 1321), as computed by [hashlib.md5(...).hexdigest()] *)

Module MD5.

Definition w32 (x : Z) : Z := x mod 2 ^ 32.

Definition rotl (x n : Z) : Z :=
  w32 (Z.lor (Z.shiftl x n) (Z.shiftr (w32 x) (32 - n))).

Definition not32 (x : Z) : Z := Z.lxor (w32 x) 0xFFFFFFFF.

Definition K : list Z :=
 [0xd76aa478; 0xe8c7b756; 0x242070db; 0xc1bdceee;
  0xf57c0faf; 0x4787c62a; 0xa8304613; 0xfd469501;
  0x698098d8; 0x8b44f7af; 0xffff5bb1; 0x895cd7be;
  0x6b901122; 0xfd987193; 0xa679438e; 0x49b40821;
  0xf61e2562; 0xc040b340; 0x265e5a51; 0xe9b6c7aa;
  0xd62f105d; 0x02441453; 0xd8a1e681; 0xe7d3fbc8;
  0x21e1cde6; 0xc33707d6; 0xf4d50d87; 0x455a14ed;
  0xa9e3e905; 0xfcefa3f8; 0x676f02d9; 0x8d2a4c8a;
  0xfffa3942; 0x8771f681; 0x6d9d6122; 0xfde5380c;
  0xa4beea44; 0x4bdecfa9; 0xf6bb4b60; 0xbebfbc70;
  0x289b7ec6; 0xeaa127fa; 0xd4ef3085; 0x04881d05;
  0xd9d4d039; 0xe6db99e5; 0x1fa27cf8; 0xc4ac5665;
  0xf4292244; 0x432aff97; 0xab9423a7; 0xfc93a039;
  0x655b59c3; 0x8f0ccc92; 0xffeff47d; 0x85845dd1;
  0x6fa87e4f; 0xfe2ce6e0; 0xa3014314; 0x4e0811a1;
  0xf7537e82; 0xbd3af235; 0x2ad7d2bb; 0xeb86d391].

Definition S : list Z :=
 [7; 12; 17; 22; 7; 12; 17; 22; 7; 12; 17; 22; 7; 12; 17; 22;
  5; 9; 14; 20; 5; 9; 14; 20; 5; 9; 14; 20; 5; 9; 14; 20;
  4; 11; 16; 23; 4; 11; 16; 23; 4; 11; 16; 23; 4; 11; 16; 23;
  6; 10; 15; 21; 6; 10; 15; 21; 6; 10; 15; 21; 6; 10; 15; 21].

Record regs := Regs { rA : Z; rB : Z; rC : Z; rD : Z }.

Definition init : regs :=
  Regs 0x67452301 0xefcdab89 0x98badcfe 0x10325476.

(** Message padding: a [0x80] byte, zeros up to 56 modulo 64, then the bit
    length as 8 little-endian bytes. *)
Definition le_bytes (n : nat) (x : Z) : list Z :=
  List.map (fun i => (x / 256 ^ Z.of_nat i) mod 256) (seq 0 n).

Definition pad (msg : list Z) : list Z :=
  let len := Z.of_nat (List.length msg) in
  let zeros := Z.to_nat ((55 - len) mod 64) in
  msg ++ [0x80] ++ repeat 0 zeros ++ le_bytes 8 ((8 * len) mod 2 ^ 64).

Definition word_of_bytes (bs : list Z) : Z :=
  fold_right (fun b acc => b + 256 * acc) 0 bs.

Fixpoint words (n : nat) (bs : list Z) : list Z :=
  match n with
  | O => []
  | Datatypes.S n' => word_of_bytes (firstn 4 bs) :: words n' (skipn 4 bs)
  end.

Definition step (M : list Z) (r : regs) (i : nat) : regs :=
  let '(Regs a b c d) := r in
  let iz := Z.of_nat i in
  let '(f, g) :=
    if iz <? 16 then (Z.lor (Z.land b c) (Z.land (not32 b) d), iz)
    else if iz <? 32 then
      (Z.lor (Z.land d b) (Z.land (not32 d) c), (5 * iz + 1) mod 16)
    else if iz <? 48 then (Z.lxor (Z.lxor b c) d, (3 * iz + 5) mod 16)
    else (Z.lxor c (Z.lor b (not32 d)), (7 * iz) mod 16) in
  let f' := w32 (f + a + nth i K 0 + nth (Z.to_nat g) M 0) in
  Regs d (w32 (b + rotl f' (nth i S 0))) b c.

Definition compress (r : regs) (chunk : list Z) : regs :=
  let M := words 16 chunk in
  let '(Regs a b c d) := fold_left (step M) (seq 0 64) r in
  Regs (w32 (rA r + a)) (w32 (rB r + b)) (w32 (rC r + c)) (w32 (rD r + d)).

Fixpoint chunks (n : nat) (bs : list Z) : list (list Z) :=
  match n with
  | O => []
  | Datatypes.S n' => firstn 64 bs :: chunks n' (skipn 64 bs)
  end.

Definition digest (msg : list Z) : list Z :=
  let p := pad msg in
  let r := fold_left compress (chunks (List.length p / 64) p) init in
  le_bytes 4 (rA r) ++ le_bytes 4 (rB r) ++ le_bytes 4 (rC r)
    ++ le_bytes 4 (rD r).

Definition hexchar (n : Z) : Z := if n <? 10 then 48 + n else 87 + n.

Definition hex_of_bytes (bs : list Z) : str :=
  flat_map (fun b => [hexchar (b / 16); hexchar (b mod 16)]) bs.

Definition hexdigest (msg : list Z) : str := hex_of_bytes (digest msg).

End MD5.

(** ** Python values, exceptions and results *)

(** The objects the program handles: [None], booleans, finite numbers
    ([int] or [float]), strings and dictionaries with string keys. *)
Inductive value :=
| VNone
| VBool (b : bool)
| VNum (q : Q)
| VStr (s : str)
| VDict (d : list (str * value)).

Inductive exn_class :=
| ValueError | UnicodeEncodeError | KeyError | TypeError | AttributeError
| OSError | UnpicklingError | LookupError | OverflowError.

(** An exception object; [str(e)] is its message. *)
Record exn := Exn { exn_kind : exn_class; exn_msg : str }.

Inductive result (A : Type) :=
| Ok (a : A)
| Raise (e : exn).
Arguments Ok {A} a.
Arguments Raise {A} e.

Fixpoint str_eqb (a b : str) : bool :=
  match a, b with
  | [], [] => true
  | x :: a', y :: b' => (x =? y) && str_eqb a' b'
  | _, _ => false
  end.

Fixpoint dict_lookup (d : list (str * value)) (k : str) : option value :=
  match d with
  | [] => None
  | (k', v) :: d' => if str_eqb k k' then Some v else dict_lookup d' k
  end.

(** [obj.get(k)]: [None] for an absent key, [AttributeError] when [obj] is
    not a dictionary. *)
Definition method_get (obj : value) (k : str) : result value :=
  match obj with
  | VDict d => Ok (default VNone (dict_lookup d k))
  | _ => Raise (Exn AttributeError (py "object has no attribute 'get'"))
  end.

(** [obj[k]] for a string key [k]. *)
Definition subscript (obj : value) (k : str) : result value :=
  match obj with
  | VDict d =>
      match dict_lookup d k with
      | Some v => Ok v
      | None => Raise (Exn KeyError k)
      end
  | _ => Raise (Exn TypeError (py "object is not subscriptable by str"))
  end.

(** *** Double-precision arithmetic *)

(** [n / d] rounded to the nearest integer, halves to the even one
    ([0 <= n], [0 < d]). *)
Definition round_half_even (n d : Z) : Z :=
  let q := n / d in
  let r := n mod d in
  if 2 * r <? d then q
  else if d <? 2 * r then q + 1
  else if Z.even q then q else q + 1.

(** [n / (d * 2 ^ e)] as a fraction of integers. *)
Definition scale2 (n d e : Z) : Z * Z :=
  if 0 <=? e then (n, d * 2 ^ e) else (n * 2 ^ (- e), d).

(** The number [m * 2 ^ e] with a 53-bit significand [m] nearest to [n / d]
    ([0 < n], [0 < d]), as a fraction in lowest terms. *)
Definition round53_pos (n d : Z) : Q :=
  let e0 := Z.log2 n - Z.log2 d - 52 in
  let '(n0, d0) := scale2 n d e0 in
  let e := if n0 <? d0 * 2 ^ 52 then e0 - 1 else e0 in
  let '(n1, d1) := scale2 n d e in
  let m := round_half_even n1 d1 in
  if 0 <=? e then inject_Z (m * 2 ^ e)
  else Qred (Qmake m (Z.to_pos (2 ^ (- e)))).

(** The double nearest to a rational, ties to even.  The exponent is not
    bounded: a result of magnitude [2 ^ 1024] or more stands for an
    infinity, with which it compares alike. *)
Definition round53 (q : Q) : Q :=
  match Qnum q with
  | 0 => 0%Q
  | Z.pos n => round53_pos (Z.pos n) (Z.pos (Qden q))
  | Z.neg n => Qopp (round53_pos (Z.pos n) (Z.pos (Qden q)))
  end.

(** [x - y] on floats. *)
Definition float_minus (x y : Q) : Q := round53 (x - y).

(** The float an operand of a float operation is converted to: a float is
    taken as it is, an [int] (or [bool]) is rounded, and one too large for a
    double raises [OverflowError]. *)
Definition float_of (v : value) : result Q :=
  match v with
  | VNum q =>
      if Qle_bool (inject_Z (2 ^ 1024)) (round53 q)
         || Qle_bool (round53 q) (inject_Z (- 2 ^ 1024))
      then Raise (Exn OverflowError (py "int too large to convert to float"))
      else Ok (round53 q)
  | VBool b => Ok (if b then 1 else 0)%Q
  | _ => Raise (Exn TypeError (py "unsupported operand type(s) for -"))
  end.

(** [x - v] for a float [x]. *)
Definition float_sub (x : Q) (v : value) : result Q :=
  match float_of v with
  | Ok y => Ok (float_minus x y)
  | Raise e => Raise e
  end.

Definition Qltb (x y : Q) : bool := negb (Qle_bool y x).

(** Truth value of an object, as tested by [if obj:]. *)
Definition truthy (v : value) : bool :=
  match v with
  | VNone => false
  | VBool b => b
  | VNum q => negb (Qeq_bool q 0)
  | VStr s => negb (str_eqb s [])
  | VDict d => match d with [] => false | _ => true end
  end.

(** ** String operations that need no Unicode table *)

Fixpoint startswith (s prefix : str) : bool :=
  match prefix, s with
  | [], _ => true
  | p :: prefix', c :: s' => (c =? p) && startswith s' prefix'
  | _ :: _, [] => false
  end.

Definition endswith (s suffix : str) : bool :=
  startswith (rev s) (rev suffix).

(** [sep.join(l)] *)
Fixpoint str_join (sep : str) (l : list str) : str :=
  match l with
  | [] => []
  | [x] => x
  | x :: l' => x ++ sep ++ str_join sep l'
  end.

(** [s.replace(old, new)]: every non-overlapping occurrence, left to right.
    [skip] counts the characters of a matched occurrence still to drop. *)
Fixpoint replace_go (old new : str) (skip : nat) (s : str) : str :=
  match s with
  | [] => []
  | c :: s' =>
      match skip with
      | S k => replace_go old new k s'
      | O =>
          if startswith s old
          then new ++ replace_go old new (List.length old - 1) s'
          else c :: replace_go old new 0 s'
      end
  end.

Definition str_replace (s old new : str) : str :=
  match old with
  | [] => flat_map (fun c => new ++ [c]) s ++ new
  | _ => replace_go old new 0 s
  end.

(** [int(x)] truncates towards zero; [str(n)] is the decimal numeral. *)
Definition py_int (x : Q) : Z := Z.quot (Qnum x) (Z.pos (Qden x)).

Fixpoint str_of_uint (u : Decimal.uint) : str :=
  match u with
  | Nil => []
  | D0 u' => 48 :: str_of_uint u'
  | D1 u' => 49 :: str_of_uint u'
  | D2 u' => 50 :: str_of_uint u'
  | D3 u' => 51 :: str_of_uint u'
  | D4 u' => 52 :: str_of_uint u'
  | D5 u' => 53 :: str_of_uint u'
  | D6 u' => 54 :: str_of_uint u'
  | D7 u' => 55 :: str_of_uint u'
  | D8 u' => 56 :: str_of_uint u'
  | D9 u' => 57 :: str_of_uint u'
  end.

Definition str_of_int (n : Z) : str :=
  match Z.to_int n with
  | Decimal.Pos u => str_of_uint u
  | Decimal.Neg u => 45 :: str_of_uint u
  end.

(** [os.path.join(a, b)] (POSIX). *)
Definition os_path_join (a b : str) : str :=
  if startswith b (py "/") then b
  else if str_eqb a [] || endswith a (py "/") then a ++ b
  else a ++ py "/" ++ b.

(** ** The world: file system, clock, call log *)

(** A file holds text, a pickle stream of a value, or data that cannot be
    read back as a pickle ([pickle.load] raises). *)
Inductive file :=
| FText (s : str)
| FPickle (v : value)
| FCorrupt.

(** Calls made on the cache; recorded for the statements only. *)
Inductive event :=
| EvGet (text language : str)
| EvSet (text language : str) (r : value).

(** How far a write got before it failed: the first [n] characters reached
    the file; broken data did (a stream cut short, a character cut in two);
    or everything did, and closing the file raised. *)
Inductive progress :=
| Written (n : nat)
| Broken
| Complete.

(** How writing a file can fail: [open] raises and nothing changes, or the
    file is opened, hence created or emptied, and the write raises after
    some progress. *)
Inductive write_failure :=
| OpenFails (e : exn)
| WriteFails (e : exn) (done : progress).

(** What a failed write of [c] leaves in the file it had opened.  Of a text
    it can be a prefix; a pickle stream cut short is no text and does not
    unpickle. *)
Definition left_behind (c : file) (done : progress) : file :=
  match done with
  | Complete => c
  | Broken => FCorrupt
  | Written n =>
      match c, n with
      | FText s, _ => FText (take n s)
      | _, O => FText []
      | _, S _ => FCorrupt
      end
  end.

(** [write_error p c] tells whether writing [c] to [p] fails, and how;
    [clock k] is the float the [k]-th call of [time.time()] returns. *)
Record state := State {
  files : gmap str file;
  write_error : str -> file -> option write_failure;
  clock : nat -> Q;
  ticks : nat;
  trace : list event }.

Definition set_files (f : gmap str file) (st : state) : state :=
  State f (write_error st) (clock st) (ticks st) (trace st).
Definition set_ticks (n : nat) (st : state) : state :=
  State (files st) (write_error st) (clock st) n (trace st).
Definition set_trace (t : list event) (st : state) : state :=
  State (files st) (write_error st) (clock st) (ticks st) t.

(** Computations that read and change the world and may raise. *)
Definition M (A : Type) : Type := state -> result A * state.

Definition ret {A} (a : A) : M A := fun st => (Ok a, st).
Definition raise {A} (e : exn) : M A := fun st => (Raise e, st).
Definition bind {A B} (m : M A) (k : A -> M B) : M B :=
  fun st =>
    match m st with
    | (Ok a, st') => k a st'
    | (Raise e, st') => (Raise e, st')
    end.
Definition lift {A} (r : result A) : M A := fun st => (r, st).

Notation "'let*' x ':=' m 'in' k" := (bind m (fun x => k))
  (at level 10, x name, m at level 100, k at level 200).

(** [try: body  except Exception as e: handler e] *)
Definition try_except {A} (body : M A) (handler : exn -> M A) : M A :=
  fun st =>
    match body st with
    | (Ok a, st') => (Ok a, st')
    | (Raise e, st') => handler e st'
    end.

Definition time_time : M Q :=
  fun st => (Ok (clock st (ticks st)), set_ticks (S (ticks st)) st).

Definition log (e : event) : M unit :=
  fun st => (Ok tt, set_trace (trace st ++ [e]) st).

Definition os_path_exists (p : str) : M bool :=
  fun st =>
    (Ok (match files st !! p with Some _ => true | None => false end), st).

(** [with open(p, 'rb') as f: pickle.load(f)] *)
Definition pickle_load_file (p : str) : M value :=
  fun st =>
    match files st !! p with
    | Some (FPickle v) => (Ok v, st)
    | Some _ => (Raise (Exn UnpicklingError (py "invalid load key")), st)
    | None => (Raise (Exn OSError (py "No such file or directory")), st)
    end.

(** [with open(p, 'w...') as f: ...] writing the content [c].  A failure
    after the file was opened leaves in it what had been written by then. *)
Definition write_file (p : str) (c : file) : M unit :=
  fun st =>
    match write_error st p c with
    | Some (OpenFails e) => (Raise e, st)
    | Some (WriteFails e done) =>
        (Raise e, set_files (<[p := left_behind c done]> (files st)) st)
    | None => (Ok tt, set_files (<[p := c]> (files st)) st)
    end.

(** ** cache.py *)

Module TranslationCache.

Record t := Build { cache_dir : str }.

(** [hashlib.md5(f"{text}_{language}".encode('utf-8')).hexdigest()]; the
    method does not use [self]. *)
Definition get_cache_key (text language : str) : result str :=
  match utf8_encode (text ++ py "_" ++ language) with
  | Some content => Ok (MD5.hexdigest content)
  | None => Raise (Exn UnicodeEncodeError (py "surrogates not allowed"))
  end.

Definition cache_file_of (self : t) (cache_key : str) : str :=
  os_path_join (cache_dir self) (cache_key ++ py ".pkl").

(** The body of the [try] block of [get]: [Some r] when it executes
    [return cached_data['result']], [None] when it falls through. *)
Definition get_try_body (cache_file : str) : M (option value) :=
  let* cached_data := pickle_load_file cache_file in
  let* now := time_time in
  let* timestamp := lift (subscript cached_data (py "timestamp")) in
  let* age := lift (float_sub now timestamp) in
  if Qltb age 86400 then
    let* r := lift (subscript cached_data (py "result")) in
    ret (Some r)
  else ret None.

Definition get (self : t) (text language : str) : M value :=
  let* _ := log (EvGet text language) in
  let* cache_key := lift (get_cache_key text language) in
  let cache_file := cache_file_of self cache_key in
  let* present := os_path_exists cache_file in
  let* returned :=
    if present
    then try_except (get_try_body cache_file) (fun _ => ret None)
    else ret None in
  match returned with
  | Some r => ret r
  | None => ret VNone
  end.

Definition set (self : t) (text language : str) (result : value) : M unit :=
  let* _ := log (EvSet text language result) in
  let* cache_key := lift (get_cache_key text language) in
  let cache_file := cache_file_of self cache_key in
  let* now := time_time in
  let cache_data :=
    VDict [(py "result", result); (py "timestamp", VNum now)] in
  try_except (write_file cache_file (FPickle cache_data))
             (fun _ => ret tt).

End TranslationCache.

(** The wrapper built by the decorator [cached_translation(cache_instance)]
    around [func]; [func] is the bound method, taking [text] and
    [language]. *)
Definition cached_translation (cache_instance : TranslationCache.t)
    (func : str -> str -> M value) (text language : str) : M value :=
  let* cached_result := TranslationCache.get cache_instance text language in
  if truthy cached_result then ret cached_result
  else
    let* result := func text language in
    let* success := lift (method_get result (py "success")) in
    let* _ :=
      if truthy success
      then TranslationCache.set cache_instance text language result
      else ret tt in
    ret result.

(** ** app.py *)

(** The tables of the Unicode database behind [str.lower], [str.upper],
    [str.isalnum] and the white space on which [str.split()] cuts. *)
Class Unicode := {
  str_lower : str -> str;
  str_upper : str -> str;
  str_isalnum : str -> bool;
  chr_isspace : Z -> bool }.

(** The two functions of the NLTK library the ISL processor calls; they may
    raise (a missing model, for instance). *)
Class NLTK := {
  word_tokenize : str -> result (list str);
  nltk_pos_tag : list str -> result (list (str * str)) }.

Definition UPLOAD_FOLDER : str := py "static/videos".

(** [s.split()]: the maximal runs of non-blank characters. *)
Fixpoint split_go `{Unicode} (cur : str) (s : str) : list str :=
  match s with
  | [] => match cur with [] => [] | _ => [cur] end
  | c :: s' =>
      if chr_isspace c
      then match cur with
           | [] => split_go [] s'
           | _ => cur :: split_go [] s'
           end
      else split_go (cur ++ [c]) s'
  end.

Definition str_split `{Unicode} (s : str) : list str := split_go [] s.

Module ISLProcessor.
Section Processor.
Context `{Unicode} `{NLTK}.

Definition tokenize_text (text : str) : result (list str) :=
  match word_tokenize (str_lower text) with
  | Ok tokens => Ok (List.filter str_isalnum tokens)
  | Raise e => Raise e
  end.

Definition pos_tag (tokens : list str) : result (list (str * str)) :=
  nltk_pos_tag tokens.

(** The four lists filled by the loop of [convert_to_isl_structure]. *)
Record buckets := Buckets {
  subjects : list str; objects : list str;
  verbs : list str; others : list str }.

Definition classify (b : buckets) (tp : str * str) : buckets :=
  let '(token, pos) := tp in
  if startswith pos (py "PRP") then
    Buckets (subjects b ++ [str_upper token]) (objects b) (verbs b)
            (others b)
  else if startswith pos (py "NN") then
    Buckets (subjects b) (objects b ++ [str_upper token]) (verbs b)
            (others b)
  else if startswith pos (py "VB") then
    Buckets (subjects b) (objects b) (verbs b ++ [str_upper token])
            (others b)
  else
    Buckets (subjects b) (objects b) (verbs b)
            (others b ++ [str_upper token]).

Definition convert_to_isl_structure (tokens : list str)
    (pos_tags : list (str * str)) : list str :=
  let b := fold_left classify pos_tags (Buckets [] [] [] []) in
  subjects b ++ objects b ++ verbs b ++ others b.

Definition create_placeholder_video (video_path : str)
    (tokens : list str) : M unit :=
  write_file (str_replace video_path (py ".mp4") (py ".txt"))
             (FText (py "ISL Signs: " ++ str_join (py " -> ") tokens)).

Definition generate_isl_video (isl_tokens : list str) : M str :=
  let* now := time_time in
  let video_filename := py "isl_" ++ str_of_int (py_int now) ++ py ".mp4" in
  let video_path := os_path_join UPLOAD_FOLDER video_filename in
  let* _ := create_placeholder_video video_path isl_tokens in
  ret video_filename.

Definition process_text_to_isl (text : str) : M value :=
  let* start_time := time_time in
  let* tokens := lift (tokenize_text text) in
  let* pos_tags := lift (pos_tag tokens) in
  let isl_tokens := convert_to_isl_structure tokens pos_tags in
  let* video_path := generate_isl_video isl_tokens in
  let* end_time := time_time in
  let processing_time := float_minus end_time start_time in
  ret (VDict [(py "video_path", VStr video_path);
              (py "isl_gloss", VStr (str_join (py " ") isl_tokens));
              (py "processing_time", VNum processing_time)]).

Definition translate (text : str) : M value :=
  try_except
    (let* result := process_text_to_isl text in
     let* video_path := lift (method_get result (py "video_path")) in
     let* isl_gloss := lift (method_get result (py "isl_gloss")) in
     let* processing_time :=
       lift (method_get result (py "processing_time")) in
     ret (VDict [(py "success", VBool true);
                 (py "video_path", video_path);
                 (py "isl_gloss", isl_gloss);
                 (py "processing_time", processing_time)]))
    (fun e =>
       ret (VDict [(py "success", VBool false);
                   (py "error", VStr (exn_msg e))])).

End Processor.
End ISLProcessor.

Module ASLProcessor.
Section Processor.
Context `{Unicode}.

Definition generate_asl_video (asl_tokens : list str) : M str :=
  let* now := time_time in
  let video_filename := py "asl_" ++ str_of_int (py_int now) ++ py ".mp4" in
  let video_path := os_path_join UPLOAD_FOLDER video_filename in
  let* _ :=
    write_file (str_replace video_path (py ".mp4") (py ".txt"))
      (FText (py "ASL Signs: " ++ str_join (py " -> ") asl_tokens)) in
  ret video_filename.

Definition process_text_to_asl (text : str) : M value :=
  let* start_time := time_time in
  let tokens := str_split (str_lower text) in
  let asl_tokens := List.map str_upper (List.filter str_isalnum tokens) in
  let* video_path := generate_asl_video asl_tokens in
  let* end_time := time_time in
  let processing_time := float_minus end_time start_time in
  ret (VDict [(py "video_path", VStr video_path);
              (py "asl_gloss", VStr (str_join (py " ") asl_tokens));
              (py "processing_time", VNum processing_time)]).

Definition translate (text : str) : M value :=
  try_except
    (let* result := process_text_to_asl text in
     let* video_path := lift (method_get result (py "video_path")) in
     let* asl_gloss := lift (method_get result (py "asl_gloss")) in
     let* processing_time :=
       lift (method_get result (py "processing_time")) in
     ret (VDict [(py "success", VBool true);
                 (py "video_path", video_path);
                 (py "asl_gloss", asl_gloss);
                 (py "processing_time", processing_time)]))
    (fun e =>
       ret (VDict [(py "success", VBool false);
                   (py "error", VStr (exn_msg e))])).

End Processor.
End ASLProcessor.

Module SignLanguageTranslator.
Section Translator.
Context `{Unicode} `{NLTK}.

Definition unsupported_language : exn :=
  Exn ValueError (py "Unsupported language. Use 'isl' or 'asl'").

Definition translate (text language : str) : M value :=
  if str_eqb (str_lower language) (py "isl") then
    ISLProcessor.translate text
  else if str_eqb (str_lower language) (py "asl") then
    ASLProcessor.translate text
  else raise unsupported_language.

End Translator.
End SignLanguageTranslator.

(** *** The routes *)

(** What a view function hands back to Flask: a JSON body with a status, the
    content of a file ([send_file]), or a text with a status. *)
Inductive response :=
| Json (body : value) (status : Z)
| SentFile (content : file)
| Text (body : str) (status : Z).

(** [sub in s] for strings. *)
Fixpoint str_contains (s sub : str) : bool :=
  startswith s sub ||
  match s with
  | [] => false
  | _ :: s' => str_contains s' sub
  end.

(** [k in obj] for a string [k]: a key of a dictionary, a substring of a
    string; numbers are not iterable. *)
Definition py_in (k : str) (obj : value) : result bool :=
  match obj with
  | VDict d => Ok (match dict_lookup d k with Some _ => true | None => false end)
  | VStr s => Ok (str_contains s k)
  | _ => Raise (Exn TypeError (py "argument is not iterable"))
  end.

(** [obj.get(k, d)] *)
Definition method_get_default (obj : value) (k : str) (d : value)
    : result value :=
  match obj with
  | VDict items => Ok (default d (dict_lookup items k))
  | _ => Raise (Exn AttributeError (py "object has no attribute 'get'"))
  end.

Fixpoint lstrip_go `{Unicode} (s : str) : str :=
  match s with
  | [] => []
  | c :: s' => if chr_isspace c then lstrip_go s' else s
  end.

(** [s.strip()] *)
Definition str_strip `{Unicode} (s : str) : str :=
  rev (lstrip_go (rev (lstrip_go s))).

(** [obj.strip()] and [obj.lower()]: only strings have these methods. *)
Definition method_strip `{Unicode} (obj : value) : result str :=
  match obj with
  | VStr s => Ok (str_strip s)
  | _ => Raise (Exn AttributeError (py "object has no attribute 'strip'"))
  end.

Definition method_lower `{Unicode} (obj : value) : result str :=
  match obj with
  | VStr s => Ok (str_lower s)
  | _ => Raise (Exn AttributeError (py "object has no attribute 'lower'"))
  end.

Definition error_body (message : str) : value :=
  VDict [(py "error", VStr message)].

Section Routes.
Context `{Unicode} `{NLTK}.

(** [translate_text], with the parsed JSON body of the request as [data]
    ([None] when there is none). *)
Definition translate_text (data : value) : M response :=
  let* has_text :=
    if truthy data then lift (py_in (py "text") data) else ret false in
  if negb has_text then ret (Json (error_body (py "No text provided")) 400)
  else
    let* text_field := lift (subscript data (py "text")) in
    let* text := lift (method_strip text_field) in
    let* language_field :=
      lift (method_get_default data (py "language") (VStr (py "isl"))) in
    let* language := lift (method_lower language_field) in
    if str_eqb text [] then
      ret (Json (error_body (py "Empty text provided")) 400)
    else
      try_except
        (let* result := SignLanguageTranslator.translate text language in
         ret (Json result 200))
        (fun e => ret (Json (error_body (exn_msg e)) 500)).

End Routes.

(** [serve_video], for a [filename] that names no directory: the file system
    of the model holds regular files only. *)
Definition serve_video (filename : str) : M response :=
  let video_path := os_path_join UPLOAD_FOLDER filename in
  fun st =>
    match files st !! video_path with
    | Some content => (Ok (SentFile content), st)
    | None => (Ok (Text (py "Video not found") 404), st)
    end.

(** ** Concrete tables and worlds for the examples *)

(** The ASCII rows of the Unicode tables: on ASCII text these are
    [str.lower], [str.upper], [str.isalnum] and [str.isspace]. *)
Module AsciiTables.

Definition lower_char (c : Z) : Z :=
  if (65 <=? c) && (c <=? 90) then c + 32 else c.
Definition upper_char (c : Z) : Z :=
  if (97 <=? c) && (c <=? 122) then c - 32 else c.
Definition alnum_char (c : Z) : bool :=
  ((48 <=? c) && (c <=? 57)) || ((65 <=? c) && (c <=? 90))
  || ((97 <=? c) && (c <=? 122)).
Definition isalnum (s : str) : bool :=
  negb (str_eqb s []) && forallb alnum_char s.
Definition isspace (c : Z) : bool :=
  ((9 <=? c) && (c <=? 13)) || ((28 <=? c) && (c <=? 32)).

#[export] Instance tables : Unicode :=
  {| str_lower := List.map lower_char;
     str_upper := List.map upper_char;
     str_isalnum := isalnum;
     chr_isspace := isspace |}.

End AsciiTables.

(** A stand-in for NLTK with a three-word lexicon, and one whose models are
    missing. *)
Module ToyNLTK.
Import AsciiTables.

Definition tag_of (token : str) : str :=
  if str_eqb token (py "i") then py "PRP"
  else if str_eqb token (py "eat") then py "VBP"
  else if str_eqb token (py "rice") then py "NN"
  else py "DT".

Definition lexicon : NLTK :=
  {| word_tokenize := fun s => Ok (str_split s);
     nltk_pos_tag := fun ts => Ok (List.map (fun t => (t, tag_of t)) ts) |}.

Definition resource_missing : exn :=
  Exn LookupError (py "Resource punkt not found.").

Definition missing : NLTK :=
  {| word_tokenize := fun _ => Raise resource_missing;
     nltk_pos_tag := fun _ => Raise resource_missing |}.

End ToyNLTK.

(** An empty file system in which every write succeeds; the [k]-th clock
    reading is [t0 + k] seconds. *)
Definition fresh_world (t0 : Z) : state :=
  State ∅ (fun _ _ => None) (fun k => inject_Z (t0 + Z.of_nat k)) 0 [].

(** The same world with every write refused. *)
Definition read_only_world (t0 : Z) : state :=
  State ∅ (fun _ _ => Some (OpenFails (Exn OSError (py "Permission denied"))))
        (fun k => inject_Z (t0 + Z.of_nat k)) 0 [].

(** A world holding the files [fs] whose disk is full: a file can be opened
    but nothing is written into it. *)
Definition full_disk_world (fs : gmap str file) (t0 : Z) : state :=
  State fs
        (fun _ _ => Some (WriteFails (Exn OSError
                                        (py "No space left on device"))
                                     (Written 0)))
        (fun k => inject_Z (t0 + Z.of_nat k)) 0 [].

(** An empty file system in which every write succeeds and whose clock reads
    [2 ^ -70] first and [86400] ever after: both are doubles. *)
Definition rounding_world : state :=
  State ∅ (fun _ _ => None)
        (fun k => match k with
                  | O => Qmake 1 (2 ^ 70)
                  | S _ => 86400%Q
                  end) 0 [].

Definition default_cache : TranslationCache.t :=
  TranslationCache.Build (py "cache").

(** [translate] behind the cache decorator: the wrapper of
    [cached_translation(cache)] around [SignLanguageTranslator.translate],
    whose signature [(self, text, language='isl')] the wrapper has.
    ([app.py] itself calls [translate] undecorated.) *)
Definition cached_translate `{Unicode} `{NLTK}
    (cache : TranslationCache.t) (text language : str) : M value :=
  cached_translation cache SignLanguageTranslator.translate text language.

(** The world after serving a list of [(text, language)] requests through
    the cached facade, whatever each request returns or raises. *)
Fixpoint serve `{Unicode} `{NLTK} (cache : TranslationCache.t)
    (requests : list (str * str)) (st : state) : state :=
  match requests with
  | [] => st
  | (text, language) :: rest =>
      serve cache rest (snd (cached_translate cache text language st))
  end.

(** ** Vocabulary of the specification *)

(** The grammatical categories of the gloss composer and the bucketing rule
    in the specification's words: pronouns are subjects, nouns objects,
    verbs verbs, everything else other. *)
Inductive category := SUBJECT | OBJECT | VERB | OTHER.

Definition category_eqb (a b : category) : bool :=
  match a, b with
  | SUBJECT, SUBJECT | OBJECT, OBJECT | VERB, VERB | OTHER, OTHER => true
  | _, _ => false
  end.

Definition category_of (pos : str) : category :=
  if startswith pos (py "PRP") then SUBJECT
  else if startswith pos (py "NN") then OBJECT
  else if startswith pos (py "VB") then VERB
  else OTHER.

(** The glosses of one category, in the order of the tagged tokens. *)
Definition partition_of `{Unicode} (c : category)
    (pos_tags : list (str * str)) : list str :=
  List.map (fun tp => str_upper (fst tp))
    (List.filter (fun tp => category_eqb (category_of (snd tp)) c) pos_tags).

(** A cache entry as [set] builds it, and the number a stored timestamp
    stands for. *)
Definition cache_entry (r : value) (created_at : Q) : value :=
  VDict [(py "result", r); (py "timestamp", VNum created_at)].

Definition TTL : Q := 86400.

(** What a stored object yields at time [now], in the specification's words:
    the result of a well-formed entry with [now - createdAt < TTL], the
    difference being the float the code computes, and nothing otherwise. *)
Definition fresh_result (cached_data : value) (now : Q) : option value :=
  match cached_data with
  | VDict d =>
      match dict_lookup d (py "timestamp"), dict_lookup d (py "result") with
      | Some ts, Some r =>
          match float_sub now ts with
          | Ok age => if Qltb age TTL then Some r else None
          | Raise _ => None
          end
      | _, _ => None
      end
  | _ => None
  end.

(** The world after a call of [Cache.get] that did not read the clock, and
    after one that did. *)
Definition logged_get (text language : str) (st : state) : state :=
  set_trace (trace st ++ [EvGet text language]) st.

Definition ticked (st : state) : state := set_ticks (S (ticks st)) st.

(** A result whose [success] field is [True]. *)
Definition successful (r : value) : Prop :=
  exists d, r = VDict d /\ dict_lookup d (py "success") = Some (VBool true).

Definition event_ok (e : event) : Prop :=
  match e with
  | EvSet _ _ r => successful r
  | EvGet _ _ => True
  end.

Definition file_ok (f : file) : Prop :=
  match f with
  | FPickle v => exists r t, v = cache_entry r t /\ successful r
  | _ => True
  end.

(** Every [set] call so far stored a successful result, and every pickle on
    disk is such an entry. *)
Definition only_successes (st : state) : Prop :=
  Forall event_ok (trace st) /\
  (forall p f, files st !! p = Some f -> file_ok f).

Definition is_hex_digit (c : Z) : Prop :=
  48 <= c <= 57 \/ 97 <= c <= 102.

Definition is_digit (c : Z) : Prop := 48 <= c <= 57.

(** The asset identifier of the specification, [{languagePrefix}_{unixSeconds}],
    and the two paths derived from it. *)
Definition asset_id (language_prefix : str) (generated_at : Q) : str :=
  language_prefix ++ py "_" ++ str_of_int (py_int generated_at).

Definition video_file_name (id : str) : str := id ++ py ".mp4".

Definition placeholder_path (id : str) : str :=
  UPLOAD_FOLDER ++ py "/" ++ id ++ py ".txt".

(** The description the placeholder renderers write. *)
Definition sign_text (label : str) (tokens : list str) : file :=
  FText (label ++ py " Signs: " ++ str_join (py " -> ") tokens).

Definition no_pickle (f : file) : Prop :=
  match f with
  | FPickle _ => False
  | _ => True
  end.

(** A step that logged no cache call and changed files only by writing
    text, or what a failed write of text leaves. *)
Definition only_text_written (st st' : state) : Prop :=
  trace st' = trace st /\
  forall p, files st' !! p = files st !! p \/
            exists f, files st' !! p = Some f /\ no_pickle f.

(** The failure result built by the [except] branch of the processors. *)
Definition failure_result (e : exn) : value :=
  VDict [(py "success", VBool false); (py "error", VStr (exn_msg e))].

(** The separator [os.path.join] puts after a directory name. *)
Definition dir_separator (dir : str) : str :=
  if str_eqb dir [] || endswith dir (py "/") then [] else py "/".

(** The position of a category in Subject-Object-Verb-Other order, and
    tagged tokens that already come in that order. *)
Definition category_rank (c : category) : nat :=
  match c with SUBJECT => 0 | OBJECT => 1 | VERB => 2 | OTHER => 3 end.

Definition tag_rank (tp : str * str) : nat :=
  category_rank (category_of (snd tp)).

Fixpoint in_sov_order (pos_tags : list (str * str)) : Prop :=
  match pos_tags with
  | [] => True
  | tp :: rest =>
      Forall (fun tp' => (tag_rank tp <= tag_rank tp')%nat) rest /\
      in_sov_order rest
  end.

(** The [success] field of a result, as the decorator tests it. *)
Definition success_flag (d : list (str * value)) : bool :=
  truthy (default VNone (dict_lookup d (py "success"))).

(** The outcome of a translation, as a property of the returned value and
    of the worlds before and after: no cache call is logged; a failed result
    leaves every file as it was, or, when the write failed after the file
    was opened, one placeholder with what the write left of the description;
    a successful one names a video [{id}.mp4] and has written the
    description of some glosses to the placeholder [{id}.txt] of the upload
    folder, a different path. *)
Definition translation_outcome (label : str) (st : state)
    (r : result value) (st' : state) : Prop :=
  trace st' = trace st /\
  exists d, r = Ok (VDict d) /\
    ((dict_lookup d (py "success") = Some (VBool false) /\
      (exists message, dict_lookup d (py "error") = Some (VStr message)) /\
      (files st' = files st \/
       exists id tokens done,
         files st' = <[placeholder_path id
                       := left_behind (sign_text label tokens) done]>
                       (files st)))
     \/
     (dict_lookup d (py "success") = Some (VBool true) /\
      exists id tokens,
        dict_lookup d (py "video_path") = Some (VStr (video_file_name id)) /\
        files st' = <[placeholder_path id := sign_text label tokens]>
                      (files st) /\
        os_path_join UPLOAD_FOLDER (id ++ py ".txt") = placeholder_path id /\
        placeholder_path id
        <> os_path_join UPLOAD_FOLDER (video_file_name id))).

(** * Properties *)

(** ** Strings and hashes *)

Lemma str_eqb_eq (a b : str) : str_eqb a b = true <-> a = b.
Proof.
  revert b; induction a as [|x a IH]; intros [|y b]; simpl; try easy.
  rewrite andb_true_iff, Z.eqb_eq, IH. split.
  - intros [-> ->]; reflexivity.
  - intros [= -> ->]; auto.
Qed.

Lemma str_eqb_neq (a b : str) : a <> b -> str_eqb a b = false.
Proof.
  intros Hne. destruct (str_eqb a b) eqn:E; [|reflexivity].
  apply str_eqb_eq in E. contradiction.
Qed.

Lemma Qltb_lt (x y : Q) : Qltb x y = true <-> (x < y)%Q.
Proof.
  unfold Qltb. rewrite negb_true_iff. split.
  - intros Hle. apply Qnot_le_lt. intros Hyx.
    apply Qle_bool_iff in Hyx. congruence.
  - intros Hlt. destruct (Qle_bool y x) eqn:E; [|reflexivity].
    apply Qle_bool_iff in E. exfalso. exact (Qlt_not_le _ _ Hlt E).
Qed.

Module MD5Facts.
Import MD5.

(** The two test vectors of RFC 1321 that [hashlib] documents. *)
Example md5_empty : hexdigest [] = py "d41d8cd98f00b204e9800998ecf8427e".
Proof. vm_compute. reflexivity. Qed.

Example md5_abc :
  hexdigest [97; 98; 99] = py "900150983cd24fb0d6963f7d28e17f72".
Proof. vm_compute. reflexivity. Qed.

Lemma hexchar_digit (n : Z) : 0 <= n < 16 -> is_hex_digit (hexchar n).
Proof.
  intros Hn. unfold hexchar, is_hex_digit.
  destruct (Z.ltb_spec n 10); lia.
Qed.

Lemma hex_of_bytes_length (bs : list Z) :
  List.length (hex_of_bytes bs) = (2 * List.length bs)%nat.
Proof.
  unfold hex_of_bytes. induction bs as [|b bs IH]; simpl; [reflexivity|].
  rewrite IH. lia.
Qed.

Lemma hex_of_bytes_digits (bs : list Z) :
  Forall (fun b => 0 <= b < 256) bs -> Forall is_hex_digit (hex_of_bytes bs).
Proof.
  unfold hex_of_bytes. induction 1 as [|b bs Hb _ IH]; simpl.
  - constructor.
  - constructor; [|constructor; [|exact IH]].
    + apply hexchar_digit. split.
      * apply Z.div_pos; lia.
      * apply Z.div_lt_upper_bound; lia.
    + apply hexchar_digit. apply Z.mod_pos_bound. lia.
Qed.

Lemma le_bytes_range (n : nat) (x : Z) :
  Forall (fun b => 0 <= b < 256) (le_bytes n x).
Proof.
  unfold le_bytes. apply Forall_map, Forall_forall. intros i _.
  apply Z.mod_pos_bound. lia.
Qed.

Lemma le_bytes_length (n : nat) (x : Z) : List.length (le_bytes n x) = n.
Proof. unfold le_bytes. rewrite length_map, length_seq. reflexivity. Qed.

Lemma digest_length (msg : list Z) : List.length (digest msg) = 16%nat.
Proof.
  unfold digest. rewrite !length_app, !le_bytes_length. reflexivity.
Qed.

Lemma digest_range (msg : list Z) :
  Forall (fun b => 0 <= b < 256) (digest msg).
Proof.
  unfold digest. repeat apply Forall_app_2; apply le_bytes_range.
Qed.

Lemma hexdigest_length (msg : list Z) :
  List.length (hexdigest msg) = 32%nat.
Proof.
  unfold hexdigest. rewrite hex_of_bytes_length, digest_length. reflexivity.
Qed.

Lemma hexdigest_digits (msg : list Z) : Forall is_hex_digit (hexdigest msg).
Proof. apply hex_of_bytes_digits, digest_range. Qed.

End MD5Facts.

(** ** The ISL gloss composer *)

Section Composer.
Context `{Unicode}.

Lemma classify_fold (pos_tags : list (str * str)) (b : ISLProcessor.buckets) :
  fold_left ISLProcessor.classify pos_tags b =
  ISLProcessor.Buckets
    (ISLProcessor.subjects b ++ partition_of SUBJECT pos_tags)
    (ISLProcessor.objects b ++ partition_of OBJECT pos_tags)
    (ISLProcessor.verbs b ++ partition_of VERB pos_tags)
    (ISLProcessor.others b ++ partition_of OTHER pos_tags).
Proof.
  revert b. induction pos_tags as [|[token pos] l IH]; intros b.
  - destruct b; simpl. unfold partition_of; simpl.
    rewrite !app_nil_r. reflexivity.
  - cbn [fold_left]. rewrite IH. clear IH.
    unfold ISLProcessor.classify, partition_of.
    cbn [List.filter List.map fst snd]. unfold category_of.
    destruct (startswith pos (py "PRP"));
      [|destruct (startswith pos (py "NN"));
        [|destruct (startswith pos (py "VB"))]];
      cbn [category_eqb List.map fst snd ISLProcessor.subjects
           ISLProcessor.objects ISLProcessor.verbs ISLProcessor.others];
      rewrite <- ?app_assoc; reflexivity.
Qed.

Lemma convert_is_concatenation (tokens : list str)
    (pos_tags : list (str * str)) :
  ISLProcessor.convert_to_isl_structure tokens pos_tags =
  partition_of SUBJECT pos_tags ++ partition_of OBJECT pos_tags
    ++ partition_of VERB pos_tags ++ partition_of OTHER pos_tags.
Proof.
  unfold ISLProcessor.convert_to_isl_structure.
  rewrite classify_fold. reflexivity.
Qed.

Lemma partition_sublist (c : category) (pos_tags : list (str * str)) :
  sublist (partition_of c pos_tags)
          (List.map str_upper (List.map fst pos_tags)).
Proof.
  unfold partition_of. induction pos_tags as [|tp l IH]; simpl.
  - constructor.
  - destruct (category_eqb (category_of (snd tp)) c); simpl.
    + apply sublist_skip, IH.
    + apply sublist_cons, IH.
Qed.

Lemma partitions_cover (pos_tags : list (str * str)) :
  Permutation
    (partition_of SUBJECT pos_tags ++ partition_of OBJECT pos_tags
       ++ partition_of VERB pos_tags ++ partition_of OTHER pos_tags)
    (List.map str_upper (List.map fst pos_tags)).
Proof.
  unfold partition_of. induction pos_tags as [|tp l IH]; simpl.
  - constructor.
  - destruct (category_of (snd tp)); simpl.
    + apply perm_skip, IH.
    + rewrite <- Permutation_middle. apply perm_skip, IH.
    + rewrite app_assoc, <- Permutation_middle, <- app_assoc.
      apply perm_skip, IH.
    + rewrite !app_assoc, <- Permutation_middle, <- !app_assoc.
      apply perm_skip, IH.
Qed.

End Composer.

(** C1. For every text that the ISL pipeline tokenizes and tags (NLTK's
    tagger returning its input tokens, each with a tag), the gloss sequence
    composed by [convert_to_isl_structure] is the concatenation of the
    SUBJECT, OBJECT, VERB and OTHER partitions in that order; each partition
    is an order-preserving subsequence of the upper-cased retained tokens;
    and the sequence is a permutation of the upper-cased tokens that passed
    the alphanumeric filter: none is omitted and none duplicated.  It is
    this sequence, joined by blanks, that a successful run of the pipeline
    publishes as [isl_gloss]. *)
Theorem isl_gloss_is_sov_partition `{Unicode} `{NLTK}
    (tagger_keeps_tokens :
       forall ts tagged, nltk_pos_tag ts = Ok tagged ->
                         List.map fst tagged = ts)
    (text : str) (tokens : list str) (pos_tags : list (str * str)) :
  ISLProcessor.tokenize_text text = Ok tokens ->
  ISLProcessor.pos_tag tokens = Ok pos_tags ->
  let gloss := ISLProcessor.convert_to_isl_structure tokens pos_tags in
  (exists raw, word_tokenize (str_lower text) = Ok raw /\
               tokens = List.filter str_isalnum raw) /\
  gloss = partition_of SUBJECT pos_tags ++ partition_of OBJECT pos_tags
            ++ partition_of VERB pos_tags ++ partition_of OTHER pos_tags /\
  (forall c, sublist (partition_of c pos_tags) (List.map str_upper tokens)) /\
  Permutation gloss (List.map str_upper tokens) /\
  (forall st d st',
     ISLProcessor.process_text_to_isl text st = (Ok (VDict d), st') ->
     dict_lookup d (py "isl_gloss") = Some (VStr (str_join (py " ") gloss))).
Proof.
  intros Htok Htag gloss.
  assert (Hrun : forall st d st',
            ISLProcessor.process_text_to_isl text st = (Ok (VDict d), st') ->
            dict_lookup d (py "isl_gloss")
            = Some (VStr (str_join (py " ") gloss))).
  { intros st d st'. unfold ISLProcessor.process_text_to_isl, bind, lift.
    unfold time_time at 1. rewrite Htok, Htag.
    destruct (ISLProcessor.generate_isl_video _ _) as [[name|e] st1];
      [|discriminate].
    unfold time_time, ret. intros [= <- _]. reflexivity. }
  apply tagger_keeps_tokens in Htag.
  split; [|split; [|split; [|split; [|exact Hrun]]]].
  - unfold ISLProcessor.tokenize_text in Htok.
    destruct (word_tokenize (str_lower text)) as [raw|e]; [|discriminate].
    exists raw. split; [reflexivity|congruence].
  - apply convert_is_concatenation.
  - intros c. rewrite <- Htag. apply partition_sublist.
  - subst gloss. rewrite convert_is_concatenation, <- Htag.
    apply partitions_cover.
Qed.

(** The example of the specification, on the three-word lexicon:
    "I eat rice" gives I RICE EAT. *)
Lemma isl_gloss_is_sov_partition_witness :
  let tokens := [py "i"; py "eat"; py "rice"] in
  let pos_tags := [(py "i", py "PRP"); (py "eat", py "VBP");
                   (py "rice", py "NN")] in
  ISLProcessor.convert_to_isl_structure
    (H := AsciiTables.tables) tokens pos_tags
    = [py "I"; py "RICE"; py "EAT"] /\
  Permutation
    (ISLProcessor.convert_to_isl_structure
       (H := AsciiTables.tables) tokens pos_tags)
    (List.map (str_upper (Unicode := AsciiTables.tables)) tokens).
Proof.
  split; [reflexivity|].
  refine (proj1 (proj2 (proj2 (proj2
    (@isl_gloss_is_sov_partition AsciiTables.tables ToyNLTK.lexicon _
       (py "I eat rice") _ _ _ _))))).
  - intros ts tagged [= <-]. rewrite map_map. simpl. apply map_id.
  - reflexivity.
  - reflexivity.
Defined.

(** ** The cache *)

Ltac world_simpl :=
  cbn [fst snd files trace ticks clock write_error set_trace set_ticks
       set_files].

Ltac run_cache :=
  unfold TranslationCache.get, TranslationCache.set,
    TranslationCache.get_try_body, bind, ret, lift, raise, log, try_except,
    os_path_exists, pickle_load_file, write_file, time_time;
  world_simpl.

Section CacheFacts.
Variable self : TranslationCache.t.
Variables text language key : str.
Hypothesis Hkey : TranslationCache.get_cache_key text language = Ok key.

Let cache_file := TranslationCache.cache_file_of self key.

Lemma get_missing (st : state) :
  files st !! cache_file = None ->
  TranslationCache.get self text language st
  = (Ok VNone, logged_get text language st).
Proof.
  intros Hf. run_cache. rewrite Hkey. world_simpl. fold cache_file.
  repeat (rewrite Hf; world_simpl).
  reflexivity.
Qed.

Lemma get_unreadable (st : state) (c : file) :
  files st !! cache_file = Some c ->
  (forall v, c <> FPickle v) ->
  TranslationCache.get self text language st
  = (Ok VNone, logged_get text language st).
Proof.
  intros Hf Hc. run_cache. rewrite Hkey. world_simpl. fold cache_file.
  repeat (rewrite Hf; world_simpl).
  destruct c as [s|v|]; try reflexivity. destruct (Hc v eq_refl).
Qed.

Lemma get_pickle (st : state) (v : value) :
  files st !! cache_file = Some (FPickle v) ->
  TranslationCache.get self text language st
  = (Ok (default VNone (fresh_result v (clock st (ticks st)))),
     ticked (logged_get text language st)).
Proof.
  intros Hf. run_cache. rewrite Hkey. world_simpl. fold cache_file.
  repeat (rewrite Hf; world_simpl).
  unfold fresh_result, subscript, TTL.
  destruct v as [| b | q | s | d]; try reflexivity.
  destruct (dict_lookup d (py "timestamp")) as [ts|]; [|reflexivity].
  destruct (float_sub (clock st (ticks st)) ts) as [age|e];
    [|destruct (dict_lookup d (py "result")); reflexivity].
  destruct (dict_lookup d (py "result")) as [r|];
    destruct (Qltb age 86400); reflexivity.
Qed.

Lemma set_stores (st : state) (r : value) :
  write_error st cache_file
    (FPickle (cache_entry r (clock st (ticks st)))) = None ->
  TranslationCache.set self text language r st
  = (Ok tt,
     set_files
       (<[cache_file := FPickle (cache_entry r (clock st (ticks st)))]>
          (files st))
       (ticked (set_trace (trace st ++ [EvSet text language r]) st))).
Proof.
  intros Hw. run_cache. rewrite Hkey. world_simpl. fold cache_file.
  unfold cache_entry in Hw. rewrite Hw. reflexivity.
Qed.

Lemma set_swallows (st : state) (r : value) (e : exn) :
  write_error st cache_file
    (FPickle (cache_entry r (clock st (ticks st)))) = Some (OpenFails e) ->
  TranslationCache.set self text language r st
  = (Ok tt, ticked (set_trace (trace st ++ [EvSet text language r]) st)).
Proof.
  intros Hw. run_cache. rewrite Hkey. world_simpl. fold cache_file.
  unfold cache_entry in Hw. rewrite Hw. reflexivity.
Qed.

Lemma set_interrupted (st : state) (r : value) (e : exn) (done : progress) :
  write_error st cache_file
    (FPickle (cache_entry r (clock st (ticks st))))
  = Some (WriteFails e done) ->
  TranslationCache.set self text language r st
  = (Ok tt,
     set_files (<[cache_file
                  := left_behind
                       (FPickle (cache_entry r (clock st (ticks st)))) done]>
                  (files st))
       (ticked (set_trace (trace st ++ [EvSet text language r]) st))).
Proof.
  intros Hw. run_cache. rewrite Hkey. world_simpl. fold cache_file.
  unfold cache_entry in Hw. rewrite Hw. reflexivity.
Qed.

End CacheFacts.

Lemma fresh_result_entry (r : value) (created_at now : Q) :
  fresh_result (cache_entry r created_at) now
  = match float_sub now (VNum created_at) with
    | Ok age => if Qltb age TTL then Some r else None
    | Raise _ => None
    end.
Proof. reflexivity. Qed.

Lemma fresh_result_Some (cached_data v : value) (now : Q) :
  fresh_result cached_data now = Some v ->
  exists d ts age,
    cached_data = VDict d /\
    dict_lookup d (py "timestamp") = Some ts /\
    float_sub now ts = Ok age /\
    dict_lookup d (py "result") = Some v /\
    (age < TTL)%Q.
Proof.
  unfold fresh_result. destruct cached_data as [| | | |d]; try discriminate.
  destruct (dict_lookup d (py "timestamp")) as [ts|] eqn:Hts;
    [|discriminate].
  destruct (dict_lookup d (py "result")) as [r|] eqn:Hres; [|discriminate].
  destruct (float_sub now ts) as [age|e] eqn:Hsub; [|discriminate].
  destruct (Qltb age TTL) eqn:Hfresh; [|discriminate].
  intros [= <-]. exists d, ts, age.
  apply Qltb_lt in Hfresh. repeat split; auto.
Qed.

Lemma cache_key_depends_on_joined_string (text1 language1 text2 language2 : str) :
  text1 ++ py "_" ++ language1 = text2 ++ py "_" ++ language2 ->
  TranslationCache.get_cache_key text1 language1
  = TranslationCache.get_cache_key text2 language2.
Proof.
  intros Hjoin. unfold TranslationCache.get_cache_key. rewrite Hjoin.
  reflexivity.
Qed.

(** A [get] for any request with the key under which [set] stored [r] reads
    [r] back, as long as the file is still the one written and the age the
    code computes, a float, is below the TTL. *)
Lemma get_after_set (self : TranslationCache.t)
    (text language text' language' key : str) (r : value) (st st2 : state)
    (age : Q) :
  TranslationCache.get_cache_key text language = Ok key ->
  TranslationCache.get_cache_key text' language' = Ok key ->
  let cache_file := TranslationCache.cache_file_of self key in
  let created_at := clock st (ticks st) in
  write_error st cache_file (FPickle (cache_entry r created_at)) = None ->
  files st2 !! cache_file
  = files (snd (TranslationCache.set self text language r st)) !! cache_file ->
  float_sub (clock st2 (ticks st2)) (VNum created_at) = Ok age ->
  (age < TTL)%Q ->
  fst (TranslationCache.get self text' language' st2) = Ok r.
Proof.
  intros Hkey Hkey' cache_file created_at Hw Hfile Hsub Hage.
  rewrite (set_stores self text language key Hkey st r Hw) in Hfile.
  cbn [snd set_files files] in Hfile.
  fold cache_file created_at in Hfile. rewrite lookup_insert_eq in Hfile.
  rewrite (get_pickle self text' language' key Hkey' st2 _ Hfile).
  rewrite fresh_result_entry, Hsub.
  apply Qltb_lt in Hage. rewrite Hage. reflexivity.
Qed.

(** C2 (as stated, refuted). "Hello" and "hello" are equal after
    lower-casing, yet for the language "isl" their cache keys differ: the
    key is computed from the text as given. *)
Lemma cache_key_is_case_sensitive :
  str_lower (Unicode := AsciiTables.tables) (py "Hello")
  = str_lower (Unicode := AsciiTables.tables) (py "hello") /\
  TranslationCache.get_cache_key (py "Hello") (py "isl")
  = Ok (py "c47c419ce6c20a7dea40fb463249a246") /\
  TranslationCache.get_cache_key (py "hello") (py "isl")
  = Ok (py "3bc3b46c7f06f792f3bd2b88fe01a8eb") /\
  TranslationCache.get_cache_key (py "Hello") (py "isl")
  <> TranslationCache.get_cache_key (py "hello") (py "isl").
Proof.
  split; [reflexivity|]. split; [vm_compute; reflexivity|].
  split; [vm_compute; reflexivity|].
  intros Heq. vm_compute in Heq. discriminate Heq.
Qed.

(** C2 (amended). For every text and language whose joined string
    [text + "_" + language] has a UTF-8 encoding, the cache key is the MD5
    hex digest of that encoding, 32 lower-case hexadecimal digits: a
    function of the text exactly as given, with no normalization, and of
    the language identifier. *)
Theorem cache_key_is_md5_of_raw_text (text language : str)
    (content : list Z) :
  utf8_encode (text ++ py "_" ++ language) = Some content ->
  TranslationCache.get_cache_key text language = Ok (MD5.hexdigest content) /\
  List.length (MD5.hexdigest content) = 32%nat /\
  Forall is_hex_digit (MD5.hexdigest content).
Proof.
  intros Henc. unfold TranslationCache.get_cache_key. rewrite Henc.
  split; [reflexivity|]. split.
  - apply MD5Facts.hexdigest_length.
  - apply MD5Facts.hexdigest_digits.
Qed.

Lemma cache_key_is_md5_of_raw_text_witness :
  TranslationCache.get_cache_key (py "hello") (py "isl")
  = Ok (MD5.hexdigest (py "hello_isl")) /\
  List.length (MD5.hexdigest (py "hello_isl")) = 32%nat /\
  Forall is_hex_digit (MD5.hexdigest (py "hello_isl")).
Proof.
  apply (cache_key_is_md5_of_raw_text (py "hello") (py "isl")).
  reflexivity.
Defined.

(** C3 (as stated, refuted). The key is computed before the [try] block: for
    a text holding a lone surrogate, [get] raises [UnicodeEncodeError]. *)
Lemma get_raises_on_lone_surrogate :
  fst (TranslationCache.get default_cache [0xD800] (py "isl")
         (fresh_world 0))
  = Raise (Exn UnicodeEncodeError (py "surrogates not allowed")).
Proof. vm_compute. reflexivity. Qed.

(** C3 (amended). For every text and language whose joined string has a
    UTF-8 encoding, [get] does not raise and leaves the files as they are.
    It returns the result of the stored object when that object is a
    well-formed entry whose age, the float [time.time() - timestamp] the
    code computes, is below 86400, and [None] in every other case: no file,
    a file that does not unpickle, an object that is not such an entry, a
    timestamp that cannot be subtracted, an expired entry.  A result other
    than [None] therefore comes from a stored entry whose computed age is
    below 24 hours. *)
Theorem get_returns_fresh_entry_or_none (self : TranslationCache.t)
    (text language key : str) (st : state) :
  TranslationCache.get_cache_key text language = Ok key ->
  let cache_file := TranslationCache.cache_file_of self key in
  let now := clock st (ticks st) in
  exists v st',
    TranslationCache.get self text language st = (Ok v, st') /\
    files st' = files st /\
    v = match files st !! cache_file with
        | Some (FPickle cached_data) =>
            default VNone (fresh_result cached_data now)
        | _ => VNone
        end /\
    (v <> VNone ->
     exists d ts age,
       files st !! cache_file = Some (FPickle (VDict d)) /\
       dict_lookup d (py "timestamp") = Some ts /\
       float_sub now ts = Ok age /\
       dict_lookup d (py "result") = Some v /\
       (age < 86400)%Q) /\
    (forall r created_at age,
       files st !! cache_file = Some (FPickle (cache_entry r created_at)) ->
       float_sub now (VNum created_at) = Ok age ->
       (age < 86400)%Q -> v = r) /\
    (forall r created_at age,
       files st !! cache_file = Some (FPickle (cache_entry r created_at)) ->
       float_sub now (VNum created_at) = Ok age ->
       ~ (age < 86400)%Q -> v = VNone) /\
    (forall r created_at e,
       files st !! cache_file = Some (FPickle (cache_entry r created_at)) ->
       float_sub now (VNum created_at) = Raise e -> v = VNone) /\
    (files st !! cache_file = None -> v = VNone) /\
    (forall c, files st !! cache_file = Some c ->
               (forall cached_data, c <> FPickle cached_data) -> v = VNone).
Proof.
  intros Hkey cache_file now.
  destruct (files st !! cache_file) as [c|] eqn:Hf.
  - destruct c as [s|cached_data|].
    + eexists _, _. split.
      { apply (get_unreadable self text language key Hkey st (FText s) Hf).
        discriminate. }
      repeat split; try reflexivity; try discriminate; try congruence.
    + eexists _, _. split.
      { apply (get_pickle self text language key Hkey st cached_data Hf). }
      fold now. split; [reflexivity|]. split; [reflexivity|].
      assert (Hentry : forall r t,
                Some (FPickle cached_data) = Some (FPickle (cache_entry r t))
                -> fresh_result cached_data now
                   = match float_sub now (VNum t) with
                     | Ok age => if Qltb age TTL then Some r else None
                     | Raise _ => None
                     end).
      { intros r t Heq.
        assert (Hd : cached_data = cache_entry r t) by congruence.
        rewrite Hd. apply fresh_result_entry. }
      destruct (fresh_result cached_data now) as [v|] eqn:Hfresh.
      * cbn [from_option]; unfold id.
        destruct (fresh_result_Some _ _ _ Hfresh)
          as (d & ts & age & Hcd & Hts & Hsub & Hres & Hage).
        split; [|split; [|split; [|split; [|split]]]].
        -- intros _. exists d, ts, age. rewrite <- Hcd. auto.
        -- intros r t a Heq Hsub' Ha. pose proof (Hentry r t Heq) as He.
           rewrite Hsub' in He. destruct (Qltb a TTL); congruence.
        -- intros r t a Heq Hsub' Ha. pose proof (Hentry r t Heq) as He.
           rewrite Hsub' in He.
           destruct (Qltb a TTL) eqn:E; [|discriminate].
           apply Qltb_lt in E. contradiction.
        -- intros r t e Heq Hsub'. pose proof (Hentry r t Heq) as He.
           rewrite Hsub' in He. discriminate.
        -- discriminate.
        -- intros c [= <-] Hc. destruct (Hc _ eq_refl).
      * cbn [from_option]; unfold id.
        split; [|split; [|split; [|split; [|split]]]]; try congruence.
        -- intros r t a Heq Hsub' Ha. pose proof (Hentry r t Heq) as He.
           rewrite Hsub' in He.
           apply Qltb_lt in Ha. unfold TTL in He. rewrite Ha in He.
           discriminate.
    + eexists _, _. split.
      { apply (get_unreadable self text language key Hkey st FCorrupt Hf).
        discriminate. }
      repeat split; try reflexivity; try discriminate; try congruence.
  - eexists _, _. split.
    { apply (get_missing self text language key Hkey st Hf). }
    repeat split; try reflexivity; try discriminate; try congruence.
Qed.

Lemma get_returns_fresh_entry_or_none_witness :
  let st :=
    snd (TranslationCache.set default_cache (py "hello") (py "isl")
           (VStr (py "r")) (fresh_world 0)) in
  exists st',
    TranslationCache.get default_cache (py "hello") (py "isl") st
    = (Ok (VStr (py "r")), st').
Proof.
  intros st.
  destruct (get_returns_fresh_entry_or_none default_cache (py "hello")
              (py "isl") (MD5.hexdigest (py "hello_isl")) st eq_refl)
    as (v & st' & Hget & _ & Hv & _).
  exists st'. rewrite Hget, Hv. vm_compute. reflexivity.
Defined.

(** C4 (as stated, refuted).  For a text holding a lone surrogate [set]
    raises, so nothing is stored and nothing read back.  When the write is
    refused [set] swallows the error, and the [get] that follows finds
    nothing.  And an entry younger than the TTL can already count as
    expired: stored at time [2 ^ -70] and read at time [86400], its exact
    age is below 86400 seconds, but the float difference the code computes
    is [86400.0] and [get] returns [None]. *)
Lemma round_trip_fails :
  fst (TranslationCache.set default_cache [0xD800] (py "isl")
         (VStr (py "r")) (fresh_world 0))
  = Raise (Exn UnicodeEncodeError (py "surrogates not allowed")) /\
  (let st := read_only_world 0 in
   let st1 :=
     snd (TranslationCache.set default_cache (py "hello") (py "isl")
            (VStr (py "r")) st) in
   fst (TranslationCache.set default_cache (py "hello") (py "isl")
          (VStr (py "r")) st) = Ok tt /\
   fst (TranslationCache.get default_cache (py "hello") (py "isl") st1)
   = Ok VNone) /\
  (let st := rounding_world in
   let st1 :=
     snd (TranslationCache.set default_cache (py "hello") (py "isl")
            (VStr (py "r")) st) in
   fst (TranslationCache.set default_cache (py "hello") (py "isl")
          (VStr (py "r")) st) = Ok tt /\
   (clock st1 (ticks st1) - clock st (ticks st) < 86400)%Q /\
   float_sub (clock st1 (ticks st1)) (VNum (clock st (ticks st)))
   = Ok 86400%Q /\
   fst (TranslationCache.get default_cache (py "hello") (py "isl") st1)
   = Ok VNone).
Proof.
  split; [vm_compute; reflexivity|]. cbv zeta.
  split; [split; vm_compute; reflexivity|].
  split; [vm_compute; reflexivity|].
  split; [vm_compute; reflexivity|].
  split; vm_compute; reflexivity.
Qed.

(** C4 (amended). For every text and language whose joined string has a
    UTF-8 encoding and every result [r], when [set(text, language, r)] has
    written its entry, a [get(text, language)] made right after it returns
    [r] provided the age the code computes, the float difference between
    the time of the [get] and the entry's timestamp, is below 86400. *)
Theorem set_then_get_round_trip (self : TranslationCache.t)
    (text language key : str) (r : value) (st : state) (age : Q) :
  TranslationCache.get_cache_key text language = Ok key ->
  let cache_file := TranslationCache.cache_file_of self key in
  let created_at := clock st (ticks st) in
  let st1 := snd (TranslationCache.set self text language r st) in
  write_error st cache_file (FPickle (cache_entry r created_at)) = None ->
  float_sub (clock st1 (ticks st1)) (VNum created_at) = Ok age ->
  (age < 86400)%Q ->
  fst (TranslationCache.set self text language r st) = Ok tt /\
  files st1 !! cache_file = Some (FPickle (cache_entry r created_at)) /\
  fst (TranslationCache.get self text language st1) = Ok r.
Proof.
  intros Hkey cache_file created_at st1 Hw Hsub Hage.
  split; [|split].
  - rewrite (set_stores self text language key Hkey st r Hw). reflexivity.
  - subst st1. rewrite (set_stores self text language key Hkey st r Hw).
    apply lookup_insert_eq.
  - apply (get_after_set self text language text language key r st st1 age
             Hkey Hkey Hw eq_refl Hsub Hage).
Qed.

Lemma set_then_get_round_trip_witness :
  let r := VDict [(py "success", VBool true)] in
  let st1 :=
    snd (TranslationCache.set default_cache (py "I eat rice") (py "isl") r
           (fresh_world 1699999999)) in
  fst (TranslationCache.get default_cache (py "I eat rice") (py "isl") st1)
  = Ok r.
Proof.
  intros r st1.
  apply (set_then_get_round_trip default_cache (py "I eat rice") (py "isl")
           (MD5.hexdigest (py "I eat rice_isl")) r (fresh_world 1699999999)
           1%Q).
  - reflexivity.
  - reflexivity.
  - vm_compute. reflexivity.
  - reflexivity.
Defined.

(** C10. The pairs ("a_b", "c") and ("a", "b_c") are distinct but join to the
    same string "a_b_c", hence receive the same cache key; what [set] stores
    for the first, [get] returns for the second. *)
Theorem cache_key_collision :
  (py "a_b", py "c") <> (py "a", py "b_c") /\
  py "a_b" ++ py "_" ++ py "c" = py "a" ++ py "_" ++ py "b_c" /\
  TranslationCache.get_cache_key (py "a_b") (py "c")
  = Ok (py "8d28cddc274233853a82eae1c6c7f0b3") /\
  TranslationCache.get_cache_key (py "a") (py "b_c")
  = Ok (py "8d28cddc274233853a82eae1c6c7f0b3") /\
  forall r,
    fst (TranslationCache.get default_cache (py "a") (py "b_c")
           (snd (TranslationCache.set default_cache (py "a_b") (py "c") r
                   (fresh_world 0))))
    = Ok r.
Proof.
  split; [discriminate|]. split; [reflexivity|].
  assert (Hkey1 : TranslationCache.get_cache_key (py "a_b") (py "c")
                  = Ok (py "8d28cddc274233853a82eae1c6c7f0b3"))
    by (vm_compute; reflexivity).
  assert (Hkey2 : TranslationCache.get_cache_key (py "a") (py "b_c")
                  = Ok (py "8d28cddc274233853a82eae1c6c7f0b3"))
    by (rewrite <- Hkey1; apply cache_key_depends_on_joined_string;
        reflexivity).
  split; [exact Hkey1|]. split; [exact Hkey2|].
  intros r.
  eapply (get_after_set default_cache _ _ _ _ _ r (fresh_world 0) _ 1%Q);
    [exact Hkey1 | exact Hkey2 | reflexivity | reflexivity | | reflexivity].
  rewrite (set_stores default_cache _ _ _ Hkey1 (fresh_world 0) r eq_refl).
  vm_compute. reflexivity.
Qed.

(** ** Names and paths of the rendered assets *)

Lemma str_of_uint_digits (u : Decimal.uint) : Forall is_digit (str_of_uint u).
Proof.
  induction u; simpl; constructor; try assumption; unfold is_digit; lia.
Qed.

Lemma str_of_int_nonneg_digits (n : Z) :
  0 <= n -> Forall is_digit (str_of_int n).
Proof.
  intros Hn. unfold str_of_int. destruct n as [|p|p]; simpl.
  - repeat constructor; unfold is_digit; lia.
  - apply str_of_uint_digits.
  - lia.
Qed.

Lemma str_of_int_no_dot (n : Z) : Forall (fun c => c <> 46) (str_of_int n).
Proof.
  assert (Hu : forall u, Forall (fun c => c <> 46) (str_of_uint u)).
  { intros u. eapply Forall_impl; [apply str_of_uint_digits|].
    unfold is_digit. intros c Hc. lia. }
  unfold str_of_int. destruct (Z.to_int n); [apply Hu|].
  constructor; [lia|apply Hu].
Qed.

Lemma py_int_whole_seconds (x : Q) :
  (0 <= x)%Q ->
  (inject_Z (py_int x) <= x)%Q /\ (x < inject_Z (py_int x + 1))%Q.
Proof.
  intros Hx. assert (Hfloor : py_int x = Qfloor x).
  { unfold py_int, Qfloor. destruct x as [n d]. simpl.
    apply Z.quot_div_nonneg; [|lia].
    unfold Qle in Hx. simpl in Hx. lia. }
  rewrite Hfloor. split; [exact (Qfloor_le x) | exact (Qlt_floor x)].
Qed.

Lemma replace_extension (p : str) :
  Forall (fun c => c <> 46) p ->
  str_replace (p ++ py ".mp4") (py ".mp4") (py ".txt") = p ++ py ".txt".
Proof.
  unfold str_replace. change (py ".mp4") with [46; 109; 112; 52].
  induction 1 as [|c p Hc _ IH].
  - reflexivity.
  - cbn [app replace_go startswith].
    destruct (Z.eqb_spec c 46) as [->|_]; [contradiction|].
    cbn [andb]. f_equal. exact IH.
Qed.

Lemma placeholder_path_of_video (id : str) :
  Forall (fun c => c <> 46) id ->
  (exists c id', id = c :: id' /\ c <> 47) ->
  os_path_join UPLOAD_FOLDER (video_file_name id)
  = UPLOAD_FOLDER ++ py "/" ++ video_file_name id /\
  str_replace (os_path_join UPLOAD_FOLDER (video_file_name id))
              (py ".mp4") (py ".txt")
  = placeholder_path id.
Proof.
  intros Hdots (c & id' & -> & Hc).
  assert (Hjoin : os_path_join UPLOAD_FOLDER (video_file_name (c :: id'))
                  = UPLOAD_FOLDER ++ py "/" ++ video_file_name (c :: id')).
  { unfold os_path_join, video_file_name.
    cbn [app startswith py]. change (Z.of_N (N_of_ascii "/")) with 47.
    destruct (Z.eqb_spec c 47); [contradiction|]. reflexivity. }
  split; [exact Hjoin|]. rewrite Hjoin. unfold video_file_name, placeholder_path.
  rewrite !app_assoc. apply replace_extension.
  rewrite <- app_assoc. apply Forall_app_2; [|apply Forall_app_2].
  - vm_compute. repeat constructor; discriminate.
  - vm_compute. repeat constructor; discriminate.
  - exact Hdots.
Qed.

Lemma asset_id_shape (c : Z) (prefix : str) (t : Q) :
  Forall (fun c => c <> 46) (c :: prefix) -> c <> 47 ->
  Forall (fun c => c <> 46) (asset_id (c :: prefix) t) /\
  exists c' id', asset_id (c :: prefix) t = c' :: id' /\ c' <> 47.
Proof.
  intros Hp Hc. split.
  - unfold asset_id. apply Forall_app_2; [exact Hp|].
    apply Forall_app_2; [|apply str_of_int_no_dot].
    repeat constructor. discriminate.
  - exists c, (prefix ++ py "_" ++ str_of_int (py_int t)). auto.
Qed.

Lemma placeholder_differs_from_video (id : str) :
  placeholder_path id <> UPLOAD_FOLDER ++ py "/" ++ video_file_name id.
Proof.
  unfold placeholder_path, video_file_name. intros Heq.
  apply app_inv_head in Heq. apply app_inv_head in Heq.
  apply app_inv_head in Heq. discriminate Heq.
Qed.

Lemma insert_text_only (st : state) (p : str) (f : file) :
  no_pickle f ->
  only_text_written st (set_files (<[p := f]> (files st)) (ticked st)).
Proof.
  intros Hf. split; [reflexivity|]. intros p'. cbn [files set_files].
  destruct (decide (p = p')) as [->|Hne].
  - right. exists f. split; [apply lookup_insert_eq|exact Hf].
  - left. apply lookup_insert_ne, Hne.
Qed.

Lemma left_behind_text (s : str) (done : progress) :
  no_pickle (left_behind (FText s) done).
Proof. destruct done; exact I. Qed.

Lemma left_behind_ok (c : file) (done : progress) :
  file_ok c -> file_ok (left_behind c done).
Proof.
  intros Hc. destruct done as [n| |]; [|exact I|exact Hc].
  destruct c, n; exact I.
Qed.

Lemma left_behind_pickle_lost (v : value) (done : progress) :
  done <> Complete -> no_pickle (left_behind (FPickle v) done).
Proof. destruct done as [[|n]| |]; [intros _; exact I ..|congruence]. Qed.

Lemma only_text_ticked (st : state) : only_text_written st (ticked st).
Proof. split; [reflexivity|]. intros p. left. reflexivity. Qed.

Lemma only_text_trans (st1 st2 st3 : state) :
  only_text_written st1 st2 -> only_text_written st2 st3 ->
  only_text_written st1 st3.
Proof.
  intros [Ht12 Hf12] [Ht23 Hf23]. split; [congruence|]. intros p.
  destruct (Hf23 p) as [Heq|Htext]; [|right; exact Htext].
  rewrite Heq. apply Hf12.
Qed.

(** ** The processors *)

Section Processors.
Context `{Unicode} `{NLTK}.

Lemma generate_isl_video_run (tokens : list str) (st : state) :
  let id := asset_id (py "isl") (clock st (ticks st)) in
  ISLProcessor.generate_isl_video tokens st
  = match write_error st (placeholder_path id) (sign_text (py "ISL") tokens)
    with
    | None =>
        (Ok (video_file_name id),
         set_files (<[placeholder_path id := sign_text (py "ISL") tokens]>
                      (files st)) (ticked st))
    | Some (OpenFails e) => (Raise e, ticked st)
    | Some (WriteFails e done) =>
        (Raise e,
         set_files (<[placeholder_path id
                      := left_behind (sign_text (py "ISL") tokens) done]>
                      (files st))
                   (ticked st))
    end.
Proof.
  intros id.
  destruct (asset_id_shape 105 (py "sl") (clock st (ticks st)))
    as [Hdots Hhead];
    [vm_compute; repeat constructor; discriminate | discriminate |].
  destruct (placeholder_path_of_video id Hdots Hhead) as [_ Hpath].
  unfold ISLProcessor.generate_isl_video,
    ISLProcessor.create_placeholder_video, bind, time_time, write_file, ret.
  world_simpl.
  change (py "isl_" ++ str_of_int (py_int (clock st (ticks st))) ++ py ".mp4")
    with (video_file_name id).
  rewrite Hpath.
  change (FText (py "ISL Signs: " ++ str_join (py " -> ") tokens))
    with (sign_text (py "ISL") tokens).
  destruct (write_error st (placeholder_path id)
              (sign_text (py "ISL") tokens)) as [[e|e done]|];
    reflexivity.
Qed.

Lemma generate_asl_video_run (tokens : list str) (st : state) :
  let id := asset_id (py "asl") (clock st (ticks st)) in
  ASLProcessor.generate_asl_video tokens st
  = match write_error st (placeholder_path id) (sign_text (py "ASL") tokens)
    with
    | None =>
        (Ok (video_file_name id),
         set_files (<[placeholder_path id := sign_text (py "ASL") tokens]>
                      (files st)) (ticked st))
    | Some (OpenFails e) => (Raise e, ticked st)
    | Some (WriteFails e done) =>
        (Raise e,
         set_files (<[placeholder_path id
                      := left_behind (sign_text (py "ASL") tokens) done]>
                      (files st))
                   (ticked st))
    end.
Proof.
  intros id.
  destruct (asset_id_shape 97 (py "sl") (clock st (ticks st)))
    as [Hdots Hhead];
    [vm_compute; repeat constructor; discriminate | discriminate |].
  destruct (placeholder_path_of_video id Hdots Hhead) as [_ Hpath].
  unfold ASLProcessor.generate_asl_video, bind, time_time, write_file, ret.
  world_simpl.
  change (py "asl_" ++ str_of_int (py_int (clock st (ticks st))) ++ py ".mp4")
    with (video_file_name id).
  rewrite Hpath.
  change (FText (py "ASL Signs: " ++ str_join (py " -> ") tokens))
    with (sign_text (py "ASL") tokens).
  destruct (write_error st (placeholder_path id)
              (sign_text (py "ASL") tokens)) as [[e|e done]|];
    reflexivity.
Qed.

Lemma generate_isl_video_effect (tokens : list str) (st : state) :
  only_text_written st (snd (ISLProcessor.generate_isl_video tokens st)).
Proof.
  rewrite generate_isl_video_run. unfold sign_text.
  destruct (write_error st _ _) as [[e|e done]|]; cbn [snd].
  - apply only_text_ticked.
  - apply insert_text_only, left_behind_text.
  - apply insert_text_only. exact I.
Qed.

Lemma generate_asl_video_effect (tokens : list str) (st : state) :
  only_text_written st (snd (ASLProcessor.generate_asl_video tokens st)).
Proof.
  rewrite generate_asl_video_run. unfold sign_text.
  destruct (write_error st _ _) as [[e|e done]|]; cbn [snd].
  - apply only_text_ticked.
  - apply insert_text_only, left_behind_text.
  - apply insert_text_only. exact I.
Qed.

(** The dictionary returned by a successful pipeline run. *)
Lemma process_text_to_isl_cases (text : str) (st : state) :
  exists st', only_text_written st st' /\
    ((exists e, ISLProcessor.process_text_to_isl text st = (Raise e, st')) \/
     (exists video_path gloss processing_time,
        ISLProcessor.process_text_to_isl text st
        = (Ok (VDict [(py "video_path", VStr video_path);
                      (py "isl_gloss", VStr gloss);
                      (py "processing_time", VNum processing_time)]), st'))).
Proof.
  destruct (ISLProcessor.process_text_to_isl text st) as [r st'] eqn:Hproc.
  exists st'. revert Hproc.
  unfold ISLProcessor.process_text_to_isl, bind, lift.
  unfold time_time at 1.
  destruct (ISLProcessor.tokenize_text text) as [tokens|e].
  2:{ intros [= <- <-]. split; [apply only_text_ticked|]. left. eauto. }
  destruct (ISLProcessor.pos_tag tokens) as [pos_tags|e].
  2:{ intros [= <- <-]. split; [apply only_text_ticked|]. left. eauto. }
  pose proof (generate_isl_video_effect
                (ISLProcessor.convert_to_isl_structure tokens pos_tags)
                (set_ticks (S (ticks st)) st)) as Heff.
  destruct (ISLProcessor.generate_isl_video _ _) as [[name|e] st1].
  - cbn [snd] in Heff. unfold time_time, ret. intros [= <- <-]. split.
    + eapply only_text_trans; [apply only_text_ticked|].
      eapply only_text_trans; [exact Heff|apply only_text_ticked].
    + right. eauto.
  - intros [= <- <-]. split.
    + eapply only_text_trans; [apply only_text_ticked|exact Heff].
    + left. eauto.
Qed.

Lemma process_text_to_asl_cases (text : str) (st : state) :
  exists st', only_text_written st st' /\
    ((exists e, ASLProcessor.process_text_to_asl text st = (Raise e, st')) \/
     (exists video_path gloss processing_time,
        ASLProcessor.process_text_to_asl text st
        = (Ok (VDict [(py "video_path", VStr video_path);
                      (py "asl_gloss", VStr gloss);
                      (py "processing_time", VNum processing_time)]), st'))).
Proof.
  destruct (ASLProcessor.process_text_to_asl text st) as [r st'] eqn:Hproc.
  exists st'. revert Hproc.
  unfold ASLProcessor.process_text_to_asl, bind.
  unfold time_time at 1.
  match goal with
  | |- context [ASLProcessor.generate_asl_video ?toks ?s] =>
      pose proof (generate_asl_video_effect toks s) as Heff;
      destruct (ASLProcessor.generate_asl_video toks s) as [[name|e] st1]
  end.
  - cbn [snd] in Heff. unfold time_time, ret. intros [= <- <-]. split.
    + eapply only_text_trans; [apply only_text_ticked|].
      eapply only_text_trans; [exact Heff|apply only_text_ticked].
    + right. eauto.
  - intros [= <- <-]. split.
    + eapply only_text_trans; [apply only_text_ticked|exact Heff].
    + left. eauto.
Qed.

Lemma isl_translate_failure (text : str) (st st' : state) (e : exn) :
  ISLProcessor.process_text_to_isl text st = (Raise e, st') ->
  ISLProcessor.translate text st = (Ok (failure_result e), st').
Proof.
  intros Hproc. unfold ISLProcessor.translate, try_except, bind.
  rewrite Hproc. reflexivity.
Qed.

Lemma asl_translate_failure (text : str) (st st' : state) (e : exn) :
  ASLProcessor.process_text_to_asl text st = (Raise e, st') ->
  ASLProcessor.translate text st = (Ok (failure_result e), st').
Proof.
  intros Hproc. unfold ASLProcessor.translate, try_except, bind.
  rewrite Hproc. reflexivity.
Qed.

(** What the processors return: a failure result, or a dictionary whose
    [success] is [True]; the cache is not touched. *)
Lemma isl_translate_cases (text : str) (st : state) :
  exists d st',
    ISLProcessor.translate text st = (Ok (VDict d), st') /\
    only_text_written st st' /\
    (dict_lookup d (py "success") = Some (VBool true) \/
     dict_lookup d (py "success") = Some (VBool false)).
Proof.
  destruct (process_text_to_isl_cases text st)
    as (st' & Heff & [[e Hproc] | (vp & gloss & pt & Hproc)]).
  - eexists _, st'. split; [apply (isl_translate_failure _ _ _ _ Hproc)|].
    split; [exact Heff|]. right. reflexivity.
  - eexists _, st'. split.
    + unfold ISLProcessor.translate, try_except, bind. rewrite Hproc.
      reflexivity.
    + split; [exact Heff|]. left. reflexivity.
Qed.

Lemma asl_translate_cases (text : str) (st : state) :
  exists d st',
    ASLProcessor.translate text st = (Ok (VDict d), st') /\
    only_text_written st st' /\
    (dict_lookup d (py "success") = Some (VBool true) \/
     dict_lookup d (py "success") = Some (VBool false)).
Proof.
  destruct (process_text_to_asl_cases text st)
    as (st' & Heff & [[e Hproc] | (vp & gloss & pt & Hproc)]).
  - eexists _, st'. split; [apply (asl_translate_failure _ _ _ _ Hproc)|].
    split; [exact Heff|]. right. reflexivity.
  - eexists _, st'. split.
    + unfold ASLProcessor.translate, try_except, bind. rewrite Hproc.
      reflexivity.
    + split; [exact Heff|]. left. reflexivity.
Qed.

End Processors.

(** C7. The [translate] operation of either processor never raises: an
    exception raised while tokenizing, tagging, composing or rendering is
    caught and turned into the result [{'success': False, 'error': str(e)}];
    otherwise the result carries [success = True]. *)
Theorem processors_never_raise `{Unicode} `{NLTK} (text : str) (st : state) :
  (exists d st', ISLProcessor.translate text st = (Ok (VDict d), st')) /\
  (forall e st',
     ISLProcessor.process_text_to_isl text st = (Raise e, st') ->
     ISLProcessor.translate text st = (Ok (failure_result e), st')) /\
  (exists d st', ASLProcessor.translate text st = (Ok (VDict d), st')) /\
  (forall e st',
     ASLProcessor.process_text_to_asl text st = (Raise e, st') ->
     ASLProcessor.translate text st = (Ok (failure_result e), st')).
Proof.
  split; [|split; [|split]].
  - destruct (isl_translate_cases text st) as (d & st' & Htr & _).
    exists d, st'. exact Htr.
  - intros e st'. apply isl_translate_failure.
  - destruct (asl_translate_cases text st) as (d & st' & Htr & _).
    exists d, st'. exact Htr.
  - intros e st'. apply asl_translate_failure.
Qed.

(** With the NLTK models missing, tokenizing raises [LookupError]; the ISL
    processor reports it as a failed result. *)
Lemma processors_never_raise_witness :
  fst (ISLProcessor.translate (H := AsciiTables.tables)
         (H0 := ToyNLTK.missing) (py "I eat rice") (fresh_world 0))
  = Ok (VDict [(py "success", VBool false);
               (py "error", VStr (py "Resource punkt not found."))]).
Proof.
  pose proof (proj1 (proj2 (@processors_never_raise AsciiTables.tables
    ToyNLTK.missing (py "I eat rice") (fresh_world 0)))) as Hfail.
  rewrite (Hfail ToyNLTK.resource_missing (ticked (fresh_world 0)) eq_refl).
  reflexivity.
Defined.

(** C8 (as stated, refuted). At time 1699999999 the name produced for an ISL
    asset is [isl_1699999999.mp4], not [isl_1699999999]. *)
Lemma asset_name_has_extension :
  fst (ISLProcessor.generate_isl_video [] (fresh_world 1699999999))
  = Ok (py "isl_1699999999.mp4") /\
  py "isl_1699999999.mp4" <> py "isl_1699999999".
Proof. split; [vm_compute; reflexivity | discriminate]. Qed.

(** C8 (amended). For every gloss sequence and generation time, if the
    placeholder can be written, the name produced is exactly
    [{languagePrefix}_{unixSeconds}.mp4], with prefix [isl] or [asl]
    according to the processor; for a time that is not negative
    [unixSeconds] is the decimal numeral of the whole seconds of that
    time. *)
Theorem asset_name_format (tokens : list str) (st : state) :
  (forall p c, write_error st p c = None) ->
  let now := clock st (ticks st) in
  fst (ISLProcessor.generate_isl_video tokens st)
  = Ok (py "isl" ++ py "_" ++ str_of_int (py_int now) ++ py ".mp4") /\
  fst (ASLProcessor.generate_asl_video tokens st)
  = Ok (py "asl" ++ py "_" ++ str_of_int (py_int now) ++ py ".mp4") /\
  ((0 <= now)%Q ->
   Forall is_digit (str_of_int (py_int now)) /\
   (inject_Z (py_int now) <= now)%Q /\ (now < inject_Z (py_int now + 1))%Q).
Proof.
  intros Hw now. split; [|split].
  - rewrite generate_isl_video_run, Hw. reflexivity.
  - rewrite generate_asl_video_run, Hw. reflexivity.
  - intros Hnow. destruct (py_int_whole_seconds now Hnow) as [Hle Hlt].
    split; [|split; assumption].
    apply str_of_int_nonneg_digits.
    destruct (Z.le_gt_cases 0 (py_int now)) as [Hge|Hneg]; [exact Hge|].
    exfalso. apply (Qlt_not_le _ _ Hlt).
    apply Qle_trans with (inject_Z 0); [|exact Hnow].
    rewrite <- Zle_Qle. lia.
Qed.

Lemma asset_name_format_witness :
  fst (ASLProcessor.generate_asl_video
         [py "I"; py "EAT"; py "RICE"] (fresh_world 1699999999))
  = Ok (py "asl_1699999999.mp4").
Proof.
  apply (proj1 (proj2 (asset_name_format
           [py "I"; py "EAT"; py "RICE"] (fresh_world 1699999999)
           (fun _ _ => eq_refl)))).
Defined.

(** C9 (as stated, refuted). In an empty upload folder the ISL placeholder
    renderer returns [isl_1699999999.mp4] but the file it creates is
    [static/videos/isl_1699999999.txt]: the path the returned name resolves
    to, [static/videos/isl_1699999999.mp4], does not exist afterwards. *)
Lemma returned_reference_is_not_the_written_file :
  let run :=
    ISLProcessor.generate_isl_video
      [py "I"; py "RICE"; py "EAT"] (fresh_world 1699999999) in
  fst run = Ok (py "isl_1699999999.mp4") /\
  os_path_join UPLOAD_FOLDER (py "isl_1699999999.mp4")
  = py "static/videos/isl_1699999999.mp4" /\
  files (snd run) !! py "static/videos/isl_1699999999.mp4" = None /\
  files (snd run) !! py "static/videos/isl_1699999999.txt"
  = Some (FText (py "ISL Signs: I -> RICE -> EAT")).
Proof. vm_compute. repeat split; reflexivity. Qed.

Lemma placeholder_written (label prefix : str) (tokens : list str)
    (st : state) (now : Q) :
  Forall (fun c => c <> 46) (asset_id prefix now) ->
  (exists c id', asset_id prefix now = c :: id' /\ c <> 47) ->
  let id := asset_id prefix now in
  let st' := set_files (<[placeholder_path id := sign_text label tokens]>
                          (files st)) (ticked st) in
  files st' !! placeholder_path id = Some (sign_text label tokens) /\
  placeholder_path id <> os_path_join UPLOAD_FOLDER (video_file_name id) /\
  files st' !! os_path_join UPLOAD_FOLDER (video_file_name id)
  = files st !! os_path_join UPLOAD_FOLDER (video_file_name id).
Proof.
  intros Hdots Hhead id st'.
  destruct (placeholder_path_of_video id Hdots Hhead) as [Hjoin _].
  assert (Hne : placeholder_path id
                <> os_path_join UPLOAD_FOLDER (video_file_name id)).
  { rewrite Hjoin. apply placeholder_differs_from_video. }
  subst st'. cbn [files set_files]. split; [apply lookup_insert_eq|].
  split; [exact Hne|]. apply lookup_insert_ne, Hne.
Qed.

(** C9 (amended). For every gloss sequence, if the write succeeds, the
    placeholder renderer of either processor writes the plain-text
    description [ISL Signs: ...] or [ASL Signs: ...] of the glosses, joined
    by [" -> "], to [static/videos/{assetId}.txt], and returns the name
    [{assetId}.mp4].  The returned name shares the asset identifier with the
    written file but resolves to a different path, which the renderer leaves
    as it was. *)
Theorem placeholder_renderer_writes_txt_returns_mp4
    (tokens : list str) (st : state) :
  (forall p c, write_error st p c = None) ->
  let now := clock st (ticks st) in
  let isl_id := asset_id (py "isl") now in
  let asl_id := asset_id (py "asl") now in
  let isl := ISLProcessor.generate_isl_video tokens st in
  let asl := ASLProcessor.generate_asl_video tokens st in
  (fst isl = Ok (isl_id ++ py ".mp4") /\
   files (snd isl) !! (UPLOAD_FOLDER ++ py "/" ++ isl_id ++ py ".txt")
   = Some (FText (py "ISL Signs: " ++ str_join (py " -> ") tokens)) /\
   UPLOAD_FOLDER ++ py "/" ++ isl_id ++ py ".txt"
   <> os_path_join UPLOAD_FOLDER (isl_id ++ py ".mp4") /\
   files (snd isl) !! os_path_join UPLOAD_FOLDER (isl_id ++ py ".mp4")
   = files st !! os_path_join UPLOAD_FOLDER (isl_id ++ py ".mp4")) /\
  (fst asl = Ok (asl_id ++ py ".mp4") /\
   files (snd asl) !! (UPLOAD_FOLDER ++ py "/" ++ asl_id ++ py ".txt")
   = Some (FText (py "ASL Signs: " ++ str_join (py " -> ") tokens)) /\
   UPLOAD_FOLDER ++ py "/" ++ asl_id ++ py ".txt"
   <> os_path_join UPLOAD_FOLDER (asl_id ++ py ".mp4") /\
   files (snd asl) !! os_path_join UPLOAD_FOLDER (asl_id ++ py ".mp4")
   = files st !! os_path_join UPLOAD_FOLDER (asl_id ++ py ".mp4")).
Proof.
  intros Hw now isl_id asl_id isl asl. split.
  - subst isl. rewrite generate_isl_video_run, Hw. cbn [fst snd].
    split; [reflexivity|].
    destruct (asset_id_shape 105 (py "sl") now) as [Hdots Hhead];
      [vm_compute; repeat constructor; discriminate | discriminate |].
    apply (placeholder_written (py "ISL") (py "isl") tokens st now
             Hdots Hhead).
  - subst asl. rewrite generate_asl_video_run, Hw. cbn [fst snd].
    split; [reflexivity|].
    destruct (asset_id_shape 97 (py "sl") now) as [Hdots Hhead];
      [vm_compute; repeat constructor; discriminate | discriminate |].
    apply (placeholder_written (py "ASL") (py "asl") tokens st now
             Hdots Hhead).
Qed.

Lemma placeholder_renderer_writes_txt_returns_mp4_witness :
  let run :=
    ISLProcessor.generate_isl_video
      [py "I"; py "RICE"; py "EAT"] (fresh_world 1699999999) in
  fst run = Ok (asset_id (py "isl") 1699999999 ++ py ".mp4") /\
  files (snd run)
    !! (UPLOAD_FOLDER ++ py "/" ++ asset_id (py "isl") 1699999999
          ++ py ".txt")
  = Some (FText (py "ISL Signs: "
                   ++ str_join (py " -> ") [py "I"; py "RICE"; py "EAT"])).
Proof.
  intros run.
  destruct (proj1 (placeholder_renderer_writes_txt_returns_mp4
    [py "I"; py "RICE"; py "EAT"]
    (fresh_world 1699999999) (fun _ _ => eq_refl)))
    as (Hname & Hfile & _).
  split; [exact Hname | exact Hfile].
Defined.

(** ** The facade and the cache decorator *)

Lemma get_effect (self : TranslationCache.t) (text language : str)
    (st : state) :
  exists r st1,
    TranslationCache.get self text language st = (r, st1) /\
    files st1 = files st /\
    trace st1 = trace st ++ [EvGet text language].
Proof.
  destruct (TranslationCache.get_cache_key text language) as [key|e] eqn:Hkey.
  - destruct (files st !! TranslationCache.cache_file_of self key)
      as [[s|v|]|] eqn:Hf.
    + eexists _, _. split;
        [apply (get_unreadable self text language key Hkey st _ Hf);
         discriminate
        |split; reflexivity].
    + eexists _, _. split;
        [apply (get_pickle self text language key Hkey st v Hf)
        |split; reflexivity].
    + eexists _, _. split;
        [apply (get_unreadable self text language key Hkey st _ Hf);
         discriminate
        |split; reflexivity].
    + eexists _, _. split;
        [apply (get_missing self text language key Hkey st Hf)
        |split; reflexivity].
  - eexists _, _. split; [|split].
    + run_cache. rewrite Hkey. reflexivity.
    + reflexivity.
    + reflexivity.
Qed.

Lemma set_effect (self : TranslationCache.t) (text language : str)
    (r : value) (st : state) :
  exists res st1,
    TranslationCache.set self text language r st = (res, st1) /\
    trace st1 = trace st ++ [EvSet text language r] /\
    (files st1 = files st \/
     (exists p t, files st1 = <[p := FPickle (cache_entry r t)]> (files st))
     \/ exists p t done,
          files st1
          = <[p := left_behind (FPickle (cache_entry r t)) done]> (files st)).
Proof.
  destruct (TranslationCache.get_cache_key text language) as [key|e] eqn:Hkey.
  - destruct (write_error st (TranslationCache.cache_file_of self key)
                (FPickle (cache_entry r (clock st (ticks st)))))
      as [[e|e done]|] eqn:Hw.
    + eexists _, _. split; [|split].
      * apply (set_swallows self text language key Hkey st r e Hw).
      * reflexivity.
      * left. reflexivity.
    + eexists _, _. split; [|split].
      * apply (set_interrupted self text language key Hkey st r e done Hw).
      * reflexivity.
      * right. right. eexists _, _, _. reflexivity.
    + eexists _, _. split; [|split].
      * apply (set_stores self text language key Hkey st r Hw).
      * reflexivity.
      * right. left. eexists _, _. reflexivity.
  - eexists _, _. split; [|split].
    + run_cache. rewrite Hkey. reflexivity.
    + reflexivity.
    + left. reflexivity.
Qed.

Section Facade.
Context `{Unicode} `{NLTK}.

Lemma translate_unsupported (text language : str) (st : state) :
  str_lower language <> py "isl" ->
  str_lower language <> py "asl" ->
  SignLanguageTranslator.translate text language st
  = (Raise SignLanguageTranslator.unsupported_language, st).
Proof.
  intros Hisl Hasl. unfold SignLanguageTranslator.translate.
  rewrite (str_eqb_neq _ _ Hisl), (str_eqb_neq _ _ Hasl). reflexivity.
Qed.

Lemma translate_cases (text language : str) (st : state) :
  SignLanguageTranslator.translate text language st
  = (Raise SignLanguageTranslator.unsupported_language, st) \/
  exists d st',
    SignLanguageTranslator.translate text language st = (Ok (VDict d), st') /\
    only_text_written st st' /\
    (dict_lookup d (py "success") = Some (VBool true) \/
     dict_lookup d (py "success") = Some (VBool false)).
Proof.
  unfold SignLanguageTranslator.translate.
  destruct (str_eqb (str_lower language) (py "isl")).
  - right. apply isl_translate_cases.
  - destruct (str_eqb (str_lower language) (py "asl")).
    + right. apply asl_translate_cases.
    + left. reflexivity.
Qed.

Lemma only_successes_text (st st' : state) :
  only_successes st -> only_text_written st st' -> only_successes st'.
Proof.
  intros [Htrace Hfiles] [Ht Hf]. split; [rewrite Ht; exact Htrace|].
  intros p f Hp. destruct (Hf p) as [Hsame|(f' & Hf' & Hno)].
  - apply (Hfiles p). congruence.
  - assert (f = f') as -> by congruence. destruct f'; [exact I| |exact I].
    destruct Hno.
Qed.

Lemma only_successes_logged (st st' : state) (e : event) :
  only_successes st -> event_ok e ->
  trace st' = trace st ++ [e] ->
  (files st' = files st \/
   exists p f, files st' = <[p := f]> (files st) /\ file_ok f) ->
  only_successes st'.
Proof.
  intros [Htrace Hfiles] He Ht Hf. split.
  - rewrite Ht. apply Forall_app_2; [exact Htrace|]. constructor; [exact He|].
    constructor.
  - intros p f Hp. destruct Hf as [Hsame|(p' & f' & Hins & Hok)].
    + apply (Hfiles p). congruence.
    + rewrite Hins in Hp. destruct (decide (p' = p)) as [->|Hne].
      * rewrite lookup_insert_eq in Hp. injection Hp as <-. exact Hok.
      * rewrite lookup_insert_ne in Hp by exact Hne. apply (Hfiles p _ Hp).
Qed.

(** One request through the cached facade keeps the invariant. *)
Lemma cached_translate_keeps_successes (cache : TranslationCache.t)
    (text language : str) (st : state) :
  only_successes st ->
  only_successes (snd (cached_translate cache text language st)).
Proof.
  intros Hinv.
  destruct (get_effect cache text language st)
    as (r & st1 & Hget & Hf1 & Ht1).
  assert (Hinv1 : only_successes st1).
  { apply (only_successes_logged st st1 (EvGet text language) Hinv I Ht1).
    left. exact Hf1. }
  unfold cached_translate, cached_translation, bind. rewrite Hget.
  destruct r as [cached|e]; [|exact Hinv1].
  destruct (truthy cached); [exact Hinv1|].
  destruct (translate_cases text language st1)
    as [Hraise|(d & st2 & Htr & Htext & Hsucc)].
  - rewrite Hraise. exact Hinv1.
  - rewrite Htr. pose proof (only_successes_text _ _ Hinv1 Htext) as Hinv2.
    unfold lift, method_get. destruct Hsucc as [Hs|Hs]; rewrite Hs.
    + cbn [from_option id truthy].
      destruct (set_effect cache text language (VDict d) st2)
        as (res & st3 & Hset & Ht3 & Hf3).
      rewrite Hset.
      assert (Hok : successful (VDict d)) by (exists d; auto).
      assert (Hinv3 : only_successes st3).
      { apply (only_successes_logged st2 st3
                 (EvSet text language (VDict d)) Hinv2 Hok Ht3).
        destruct Hf3 as [Hsame|[(p & t & Hins)|(p & t & done & Hins)]];
          [left; exact Hsame| |].
        - right. exists p, (FPickle (cache_entry (VDict d) t)).
          split; [exact Hins|]. exists (VDict d), t. auto.
        - right. eexists p, _. split; [exact Hins|].
          apply left_behind_ok. exists (VDict d), t. auto. }
      destruct res; exact Hinv3.
    + cbn [from_option id truthy]. exact Hinv2.
Qed.

End Facade.

(** C5 (as stated, refuted).  The language string "ISL" is neither "isl" nor
    "asl", yet [translate] lower-cases it and translates: whatever NLTK
    does, a result is returned and no [ValueError] raised.  And behind the
    cache decorator a request for "bsl" is rejected only after the cache has
    been read. *)
Lemma unsupported_language_claim_fails :
  (py "ISL" <> py "isl" /\ py "ISL" <> py "asl" /\
   (forall (nltk : NLTK) (st : state), exists d st',
      SignLanguageTranslator.translate (H := AsciiTables.tables)
        (H0 := nltk) (py "I eat rice") (py "ISL") st
      = (Ok (VDict d), st')) /\
   exists d,
     fst (SignLanguageTranslator.translate (H := AsciiTables.tables)
            (H0 := ToyNLTK.lexicon) (py "I eat rice") (py "ISL")
            (fresh_world 1699999999))
     = Ok (VDict d) /\
     dict_lookup d (py "success") = Some (VBool true) /\
     dict_lookup d (py "isl_gloss") = Some (VStr (py "I RICE EAT"))) /\
  (forall nltk : NLTK,
   let run :=
     cached_translate (H := AsciiTables.tables) (H0 := nltk)
       default_cache (py "hello") (py "bsl") (fresh_world 0) in
   fst run = Raise SignLanguageTranslator.unsupported_language /\
   trace (snd run) = [EvGet (py "hello") (py "bsl")]).
Proof.
  split.
  - split; [discriminate|]. split; [discriminate|]. split.
    + intros nltk st.
      destruct (isl_translate_cases (H := AsciiTables.tables) (H0 := nltk)
                  (py "I eat rice") st) as (d & st' & Htr & _).
      exists d, st'. exact Htr.
    + eexists. split; [vm_compute; reflexivity|].
      split; vm_compute; reflexivity.
  - intros nltk. vm_compute. split; reflexivity.
Qed.

(** Behind the decorator an unsupported language can even be served from the
    cache: "b_asl" for the text "a" shares its key with "asl" for "a_b". *)
Example cached_unsupported_language_served :
  let st1 :=
    snd (cached_translate (H := AsciiTables.tables) (H0 := ToyNLTK.lexicon)
           default_cache (py "a_b") (py "asl") (fresh_world 0)) in
  exists d,
    fst (cached_translate (H := AsciiTables.tables) (H0 := ToyNLTK.lexicon)
           default_cache (py "a") (py "b_asl") st1)
    = Ok (VDict d) /\
    dict_lookup d (py "success") = Some (VBool true).
Proof.
  eexists. split; [vm_compute; reflexivity|]. vm_compute. reflexivity.
Qed.

(** C5 (amended). For every text and every language string whose lower-cased
    form is neither "isl" nor "asl", [SignLanguageTranslator.translate]
    raises [ValueError] at once: the world is unchanged, so nothing was
    computed and the cache was neither read nor written.  Behind the
    [cached_translation] decorator the wrapper first calls [Cache.get];
    when that finds nothing the same [ValueError] propagates, the only cache
    access being that read: no file is changed and [Cache.set] is not
    called. *)
Theorem unsupported_language_rejected `{Unicode} `{NLTK}
    (text language : str) (st : state) :
  str_lower language <> py "isl" ->
  str_lower language <> py "asl" ->
  SignLanguageTranslator.translate text language st
  = (Raise SignLanguageTranslator.unsupported_language, st) /\
  forall cache v st1,
    TranslationCache.get cache text language st = (Ok v, st1) ->
    truthy v = false ->
    cached_translate cache text language st
    = (Raise SignLanguageTranslator.unsupported_language, st1) /\
    files st1 = files st /\
    trace st1 = trace st ++ [EvGet text language].
Proof.
  intros Hisl Hasl. split; [apply translate_unsupported; assumption|].
  intros cache v st1 Hget Hfalsy.
  destruct (get_effect cache text language st) as (r & st1' & Hget' & Hf & Ht).
  rewrite Hget in Hget'. injection Hget' as <- <-.
  split; [|split; assumption].
  unfold cached_translate, cached_translation, bind.
  rewrite Hget, Hfalsy, (translate_unsupported text language st1 Hisl Hasl).
  reflexivity.
Qed.

Lemma unsupported_language_rejected_witness :
  SignLanguageTranslator.translate (H := AsciiTables.tables)
    (H0 := ToyNLTK.lexicon) (py "I eat rice") (py "bsl") (fresh_world 0)
  = (Raise (Exn ValueError (py "Unsupported language. Use 'isl' or 'asl'")),
     fresh_world 0).
Proof.
  apply (@unsupported_language_rejected AsciiTables.tables ToyNLTK.lexicon
           (py "I eat rice") (py "bsl") (fresh_world 0)).
  - discriminate.
  - discriminate.
Defined.

(** C6. Starting from a cache that holds only successful results, after any
    sequence of requests served through the cached facade every call of
    [Cache.set] made so far carried a result whose [success] is [True], and
    every entry stored on disk holds such a result: failed results are never
    cached. *)
Theorem cache_holds_only_successes `{Unicode} `{NLTK}
    (cache : TranslationCache.t) (requests : list (str * str))
    (st : state) :
  only_successes st -> only_successes (serve cache requests st).
Proof.
  revert st. induction requests as [|[text language] rest IH]; intros st Hinv.
  - exact Hinv.
  - cbn [serve]. apply IH, cached_translate_keeps_successes, Hinv.
Qed.

Lemma cache_holds_only_successes_witness :
  only_successes
    (serve (H := AsciiTables.tables) (H0 := ToyNLTK.missing) default_cache
       [(py "I eat rice", py "asl"); (py "I eat rice", py "isl");
        (py "I eat rice", py "bsl")]
       (fresh_world 1699999999)).
Proof.
  apply (@cache_holds_only_successes AsciiTables.tables ToyNLTK.missing).
  split.
  - constructor.
  - intros p f Hp. unfold fresh_world in Hp. cbn [files] in Hp.
    rewrite lookup_empty in Hp. discriminate Hp.
Defined.

(** With the NLTK models missing the ISL request fails and is not cached,
    while the ASL request succeeds and is: the only [set] call is the one
    for "asl". *)
Example failed_result_is_not_cached :
  let st :=
    serve (H := AsciiTables.tables) (H0 := ToyNLTK.missing) default_cache
      [(py "I eat rice", py "isl"); (py "I eat rice", py "asl")]
      (fresh_world 1699999999) in
  List.map (fun e => match e with
                     | EvGet _ language => (false, language)
                     | EvSet _ language _ => (true, language)
                     end) (trace st)
  = [(false, py "isl"); (false, py "asl"); (true, py "asl")].
Proof. vm_compute. reflexivity. Qed.

(** * Further properties of the code *)

(** ** The cache on its own *)

Lemma cache_key_is_hex (text language key : str) :
  TranslationCache.get_cache_key text language = Ok key ->
  List.length key = 32%nat /\ Forall is_hex_digit key.
Proof.
  unfold TranslationCache.get_cache_key.
  destruct (utf8_encode (text ++ py "_" ++ language)) as [content|];
    [|discriminate].
  intros [= <-]. split.
  - apply MD5Facts.hexdigest_length.
  - apply MD5Facts.hexdigest_digits.
Qed.

Lemma cache_file_of_hex (self : TranslationCache.t) (key : str) :
  List.length key = 32%nat -> Forall is_hex_digit key ->
  TranslationCache.cache_file_of self key
  = TranslationCache.cache_dir self
      ++ dir_separator (TranslationCache.cache_dir self) ++ key ++ py ".pkl".
Proof.
  intros Hlen Hhex. destruct key as [|c key]; [discriminate|].
  apply Forall_cons in Hhex as [Hc _].
  unfold TranslationCache.cache_file_of, os_path_join, dir_separator.
  cbn [app startswith py]. change (Z.of_N (N_of_ascii "/")) with 47.
  destruct (Z.eqb_spec c 47) as [->|_].
  - unfold is_hex_digit in Hc. lia.
  - cbn [andb].
    destruct (str_eqb (TranslationCache.cache_dir self) []
              || endswith (TranslationCache.cache_dir self) [47]);
      reflexivity.
Qed.

(** X5. The file of a cache entry lies directly in the cache directory and
    is named by the 32 hexadecimal digits of the key followed by [.pkl]:
    no character of the text or of the language reaches the path. *)
Theorem cache_file_is_dir_hex_pkl (self : TranslationCache.t)
    (text language key : str) :
  TranslationCache.get_cache_key text language = Ok key ->
  TranslationCache.cache_file_of self key
  = TranslationCache.cache_dir self
      ++ dir_separator (TranslationCache.cache_dir self) ++ key ++ py ".pkl"
  /\ List.length key = 32%nat /\ Forall is_hex_digit key.
Proof.
  intros Hkey. destruct (cache_key_is_hex text language key Hkey) as [Hl Hh].
  split; [apply cache_file_of_hex; assumption|]. split; assumption.
Qed.

Lemma cache_file_is_dir_hex_pkl_witness :
  TranslationCache.cache_file_of default_cache
    (py "3bc3b46c7f06f792f3bd2b88fe01a8eb")
  = py "cache/3bc3b46c7f06f792f3bd2b88fe01a8eb.pkl".
Proof.
  rewrite (proj1 (cache_file_is_dir_hex_pkl default_cache (py "hello")
                    (py "isl") (py "3bc3b46c7f06f792f3bd2b88fe01a8eb")
                    ltac:(vm_compute; reflexivity))).
  reflexivity.
Defined.

Lemma cache_file_of_inj (self : TranslationCache.t)
    (text1 language1 key1 text2 language2 key2 : str) :
  TranslationCache.get_cache_key text1 language1 = Ok key1 ->
  TranslationCache.get_cache_key text2 language2 = Ok key2 ->
  TranslationCache.cache_file_of self key1
  = TranslationCache.cache_file_of self key2 ->
  key1 = key2.
Proof.
  intros Hk1 Hk2.
  destruct (cache_key_is_hex _ _ _ Hk1) as [Hl1 Hh1].
  destruct (cache_key_is_hex _ _ _ Hk2) as [Hl2 Hh2].
  rewrite !cache_file_of_hex by assumption. intros Heq.
  apply app_inv_head in Heq. apply app_inv_head in Heq.
  apply app_inv_tail in Heq. exact Heq.
Qed.

(** What [get] returns depends only on the file of the key and on the clock
    reading. *)
Lemma get_frame (self : TranslationCache.t) (text language key : str)
    (st st' : state) :
  TranslationCache.get_cache_key text language = Ok key ->
  files st !! TranslationCache.cache_file_of self key
  = files st' !! TranslationCache.cache_file_of self key ->
  clock st (ticks st) = clock st' (ticks st') ->
  fst (TranslationCache.get self text language st)
  = fst (TranslationCache.get self text language st').
Proof.
  intros Hkey Hfile Hclock.
  destruct (files st !! TranslationCache.cache_file_of self key)
    as [[s|v|]|] eqn:Hf; symmetry in Hfile.
  - rewrite (get_unreadable self text language key Hkey st _ Hf),
      (get_unreadable self text language key Hkey st' _ Hfile);
      [reflexivity|discriminate|discriminate].
  - rewrite (get_pickle self text language key Hkey st _ Hf),
      (get_pickle self text language key Hkey st' _ Hfile), Hclock.
    reflexivity.
  - rewrite (get_unreadable self text language key Hkey st _ Hf),
      (get_unreadable self text language key Hkey st' _ Hfile);
      [reflexivity|discriminate|discriminate].
  - rewrite (get_missing self text language key Hkey st Hf),
      (get_missing self text language key Hkey st' Hfile). reflexivity.
Qed.

Lemma set_is_best_effort_aux (self : TranslationCache.t)
    (text language key : str) (r : value) (st : state) :
  TranslationCache.get_cache_key text language = Ok key ->
  let st1 := snd (TranslationCache.set self text language r st) in
  ticks st1 = S (ticks st) /\ clock st1 = clock st /\
  (files st1 = files st \/
   exists c,
     files st1 = <[TranslationCache.cache_file_of self key := c]> (files st)).
Proof.
  intros Hkey st1. subst st1.
  destruct (write_error st (TranslationCache.cache_file_of self key)
              (FPickle (cache_entry r (clock st (ticks st)))))
    as [[e|e done]|] eqn:Hw.
  - rewrite (set_swallows self text language key Hkey st r e Hw).
    split; [reflexivity|]. split; [reflexivity|]. left. reflexivity.
  - rewrite (set_interrupted self text language key Hkey st r e done Hw).
    split; [reflexivity|]. split; [reflexivity|]. right. eexists. reflexivity.
  - rewrite (set_stores self text language key Hkey st r Hw).
    split; [reflexivity|]. split; [reflexivity|]. right. eexists. reflexivity.
Qed.

(** X1. [set] is best effort.  When the key can be computed [set] returns
    normally whether or not the write goes through.  An accepted write
    replaces exactly the file of the key by the entry [{'result': r,
    'timestamp': now}].  A write refused when the file is opened leaves
    every file as it was.  A write that fails after the file was opened
    leaves in the file of the key what had been written by then; unless that
    is the whole entry, the entry that was there before is lost and a [get]
    for the key finds nothing. *)
Theorem set_is_best_effort (self : TranslationCache.t)
    (text language key : str) (r : value) (st : state) :
  TranslationCache.get_cache_key text language = Ok key ->
  let cache_file := TranslationCache.cache_file_of self key in
  let entry := FPickle (cache_entry r (clock st (ticks st))) in
  exists st',
    TranslationCache.set self text language r st = (Ok tt, st') /\
    ticks st' = S (ticks st) /\
    (write_error st cache_file entry = None ->
     files st' = <[cache_file := entry]> (files st)) /\
    (forall e, write_error st cache_file entry = Some (OpenFails e) ->
               files st' = files st) /\
    (forall e done,
       write_error st cache_file entry = Some (WriteFails e done) ->
       files st' = <[cache_file := left_behind entry done]> (files st) /\
       (done <> Complete ->
        fst (TranslationCache.get self text language st') = Ok VNone)).
Proof.
  intros Hkey cache_file entry.
  destruct (write_error st cache_file entry) as [[e|e done]|] eqn:Hw.
  - eexists. split;
      [apply (set_swallows self text language key Hkey st r e Hw)|].
    split; [reflexivity|]. split; [discriminate|].
    split; [reflexivity|discriminate].
  - eexists. split;
      [apply (set_interrupted self text language key Hkey st r e done Hw)|].
    split; [reflexivity|]. split; [discriminate|]. split; [discriminate|].
    intros e' done' [= _ <-]. split; [reflexivity|]. intros Hdone.
    pose proof (left_behind_pickle_lost
                  (cache_entry r (clock st (ticks st))) done Hdone) as Hlost.
    rewrite (get_unreadable self text language key Hkey _
               (left_behind entry done));
      [reflexivity | apply lookup_insert_eq |].
    intros v Hv. unfold entry in Hv. rewrite Hv in Hlost. exact Hlost.
  - eexists. split;
      [apply (set_stores self text language key Hkey st r Hw)|].
    split; [reflexivity|]. split; [reflexivity|].
    split; discriminate.
Qed.

Lemma set_is_best_effort_witness :
  let cache_file := py "cache/3bc3b46c7f06f792f3bd2b88fe01a8eb.pkl" in
  let st :=
    full_disk_world
      {[ cache_file := FPickle (cache_entry (VStr (py "old")) 0) ]} 0 in
  exists st',
    TranslationCache.set default_cache (py "hello") (py "isl")
      (VStr (py "new")) st = (Ok tt, st') /\
    files st' !! cache_file = Some (FText []) /\
    fst (TranslationCache.get default_cache (py "hello") (py "isl") st')
    = Ok VNone.
Proof.
  intros cache_file st.
  destruct (set_is_best_effort default_cache (py "hello") (py "isl")
              (py "3bc3b46c7f06f792f3bd2b88fe01a8eb") (VStr (py "new")) st
              ltac:(vm_compute; reflexivity))
    as (st' & Hset & _ & _ & _ & Hlost).
  destruct (Hlost _ _ eq_refl) as [Hfiles Hget].
  exists st'. split; [exact Hset|]. split; [|apply Hget; discriminate].
  rewrite Hfiles. apply lookup_insert_eq.
Defined.

(** X2. When [text + "_" + language] has no UTF-8 encoding, [get] and [set]
    both raise [UnicodeEncodeError] without touching a file, and the
    decorator's wrapper raises it before the wrapped function is called. *)
Theorem unencodable_request_raises (self : TranslationCache.t)
    (func : str -> str -> M value) (text language : str) (r : value)
    (st : state) :
  utf8_encode (text ++ py "_" ++ language) = None ->
  let e := Exn UnicodeEncodeError (py "surrogates not allowed") in
  TranslationCache.get self text language st
  = (Raise e, logged_get text language st) /\
  TranslationCache.set self text language r st
  = (Raise e, set_trace (trace st ++ [EvSet text language r]) st) /\
  cached_translation self func text language st
  = (Raise e, logged_get text language st).
Proof.
  intros Henc e.
  assert (Hkey : TranslationCache.get_cache_key text language = Raise e).
  { unfold TranslationCache.get_cache_key. rewrite Henc. reflexivity. }
  assert (Hget : TranslationCache.get self text language st
                 = (Raise e, logged_get text language st)).
  { run_cache. rewrite Hkey. reflexivity. }
  split; [exact Hget|]. split.
  - run_cache. rewrite Hkey. reflexivity.
  - unfold cached_translation, bind. rewrite Hget. reflexivity.
Qed.

Lemma unencodable_request_raises_witness :
  fst (cached_translation default_cache
         (fun _ _ => ret (VDict [(py "success", VBool true)]))
         [0xDC00] (py "asl") (fresh_world 0))
  = Raise (Exn UnicodeEncodeError (py "surrogates not allowed")).
Proof.
  rewrite (proj2 (proj2 (unencodable_request_raises default_cache
    (fun _ _ => ret (VDict [(py "success", VBool true)]))
    [0xDC00] (py "asl") VNone (fresh_world 0) eq_refl))).
  reflexivity.
Defined.

(** X3. The last write wins: after two [set] calls for the same text and
    language, a [get] returns the second result, provided the age of the
    second entry as the code computes it, a float difference, is below
    86400. *)
Theorem last_set_wins (self : TranslationCache.t)
    (text language key : str) (r1 r2 : value) (st : state) (age : Q) :
  TranslationCache.get_cache_key text language = Ok key ->
  (forall c, write_error st (TranslationCache.cache_file_of self key) c
             = None) ->
  let st1 := snd (TranslationCache.set self text language r1 st) in
  let st2 := snd (TranslationCache.set self text language r2 st1) in
  float_sub (clock st2 (ticks st2)) (VNum (clock st1 (ticks st1))) = Ok age ->
  (age < 86400)%Q ->
  fst (TranslationCache.get self text language st2) = Ok r2.
Proof.
  intros Hkey Hw st1 st2 Hsub Hage.
  assert (Hst1 : write_error st1 = write_error st).
  { subst st1. rewrite (set_stores self text language key Hkey st r1 (Hw _)).
    reflexivity. }
  apply (get_after_set self text language text language key r2 st1 st2 age
           Hkey Hkey).
  - rewrite Hst1. apply Hw.
  - reflexivity.
  - exact Hsub.
  - exact Hage.
Qed.

Lemma last_set_wins_witness :
  let st1 :=
    snd (TranslationCache.set default_cache (py "hello") (py "isl")
           (VStr (py "old")) (fresh_world 0)) in
  let st2 :=
    snd (TranslationCache.set default_cache (py "hello") (py "isl")
           (VStr (py "new")) st1) in
  fst (TranslationCache.get default_cache (py "hello") (py "isl") st2)
  = Ok (VStr (py "new")).
Proof.
  apply (last_set_wins default_cache (py "hello") (py "isl")
           (MD5.hexdigest (py "hello_isl")) (VStr (py "old"))
           (VStr (py "new")) (fresh_world 0) 1%Q eq_refl (fun _ => eq_refl)).
  - vm_compute. reflexivity.
  - reflexivity.
Defined.

(** X4. Entries do not interfere: storing a result under one key leaves the
    file of every other key as it was, so a [get] for another key returns
    what it would have returned at that moment without the [set]. *)
Theorem set_leaves_other_keys (self : TranslationCache.t)
    (text language key text' language' key' : str) (r : value)
    (st : state) :
  TranslationCache.get_cache_key text language = Ok key ->
  TranslationCache.get_cache_key text' language' = Ok key' ->
  key <> key' ->
  let st1 := snd (TranslationCache.set self text language r st) in
  files st1 !! TranslationCache.cache_file_of self key'
  = files st !! TranslationCache.cache_file_of self key' /\
  fst (TranslationCache.get self text' language' st1)
  = fst (TranslationCache.get self text' language' (ticked st)).
Proof.
  intros Hkey Hkey' Hne st1.
  assert (Hpath : TranslationCache.cache_file_of self key
                  <> TranslationCache.cache_file_of self key').
  { intros Heq. apply Hne.
    exact (cache_file_of_inj self _ _ _ _ _ _ Hkey Hkey' Heq). }
  destruct (set_is_best_effort_aux self text language key r st Hkey)
    as (Hticks & Hclock & Hfiles).
  fold st1 in Hticks, Hclock, Hfiles.
  assert (Hsame : files st1 !! TranslationCache.cache_file_of self key'
                  = files st !! TranslationCache.cache_file_of self key').
  { destruct Hfiles as [-> | [c ->]]; [reflexivity|].
    apply lookup_insert_ne, Hpath. }
  split; [exact Hsame|].
  apply (get_frame self text' language' key' st1 (ticked st) Hkey').
  - exact Hsame.
  - rewrite Hclock, Hticks. reflexivity.
Qed.

Lemma set_leaves_other_keys_witness :
  let st1 :=
    snd (TranslationCache.set default_cache (py "hello") (py "isl")
           (VStr (py "r")) (fresh_world 0)) in
  fst (TranslationCache.get default_cache (py "hello") (py "asl") st1)
  = Ok VNone.
Proof.
  cbv zeta.
  rewrite (proj2 (set_leaves_other_keys default_cache
    (py "hello") (py "isl") (MD5.hexdigest (py "hello_isl"))
    (py "hello") (py "asl") (MD5.hexdigest (py "hello_asl"))
    (VStr (py "r")) (fresh_world 0) eq_refl eq_refl
    ltac:(vm_compute; discriminate))).
  vm_compute. reflexivity.
Defined.

(** ** The decorator *)

Lemma get_ok_has_key (self : TranslationCache.t) (text language : str)
    (st st1 : state) (v : value) :
  TranslationCache.get self text language st = (Ok v, st1) ->
  exists key, TranslationCache.get_cache_key text language = Ok key.
Proof.
  destruct (TranslationCache.get_cache_key text language) as [key|e] eqn:Hkey.
  - intros _. exists key. reflexivity.
  - run_cache. rewrite Hkey. discriminate.
Qed.

Lemma success_flag_nonempty (d : list (str * value)) :
  success_flag d = true -> truthy (VDict d) = true.
Proof. destruct d; [discriminate|reflexivity]. Qed.

Lemma wrapper_miss (cache : TranslationCache.t)
    (func : str -> str -> M value) (text language : str)
    (st st1 : state) (v : value) :
  TranslationCache.get cache text language st = (Ok v, st1) ->
  truthy v = false ->
  cached_translation cache func text language st
  = match func text language st1 with
    | (Ok result, st2) =>
        match method_get result (py "success") with
        | Ok success =>
            if truthy success
            then match TranslationCache.set cache text language result st2
                 with
                 | (Ok _, st3) => (Ok result, st3)
                 | (Raise e, st3) => (Raise e, st3)
                 end
            else (Ok result, st2)
        | Raise e => (Raise e, st2)
        end
    | (Raise e, st2) => (Raise e, st2)
    end.
Proof.
  intros Hget Hfalsy. unfold cached_translation, bind, lift, ret.
  rewrite Hget, Hfalsy.
  destruct (func text language st1) as [[result|e] st2]; [|reflexivity].
  destruct (method_get result (py "success")) as [success|e]; [|reflexivity].
  destruct (truthy success); [|reflexivity].
  destruct (TranslationCache.set cache text language result st2)
    as [[[]|e] st3]; reflexivity.
Qed.

(** X7. On a cache miss the wrapper is transparent: it returns the very
    dictionary the wrapped function returned, and raises [AttributeError]
    when the function returned something that is not a dictionary. *)
Theorem wrapper_returns_what_func_returns (cache : TranslationCache.t)
    (func : str -> str -> M value) (text language : str)
    (st st1 : state) (v : value) :
  TranslationCache.get cache text language st = (Ok v, st1) ->
  truthy v = false ->
  (forall d st2,
     func text language st1 = (Ok (VDict d), st2) ->
     fst (cached_translation cache func text language st) = Ok (VDict d)) /\
  (forall r st2,
     func text language st1 = (Ok r, st2) ->
     (forall d, r <> VDict d) ->
     exists e,
       cached_translation cache func text language st = (Raise e, st2) /\
       exn_kind e = AttributeError).
Proof.
  intros Hget Hfalsy.
  destruct (get_ok_has_key _ _ _ _ _ _ Hget) as [key Hkey].
  rewrite (wrapper_miss cache func text language st st1 v Hget Hfalsy).
  split.
  - intros d st2 ->. cbn [method_get].
    destruct (truthy (default VNone (dict_lookup d (py "success"))));
      [|reflexivity].
    destruct (write_error st2 (TranslationCache.cache_file_of cache key)
                (FPickle (cache_entry (VDict d) (clock st2 (ticks st2)))))
      as [[e|e done]|] eqn:Hw.
    + rewrite (set_swallows cache text language key Hkey st2 _ e Hw).
      reflexivity.
    + rewrite (set_interrupted cache text language key Hkey st2 _ e done Hw).
      reflexivity.
    + rewrite (set_stores cache text language key Hkey st2 _ Hw).
      reflexivity.
  - intros r st2 -> Hr. destruct r as [| b | q | s | d];
      try (eexists; split; reflexivity).
    destruct (Hr d eq_refl).
Qed.

Lemma wrapper_returns_what_func_returns_witness :
  fst (cached_translation default_cache
         (fun text _ => ret (VDict [(py "echo", VStr text)]))
         (py "hello") (py "isl") (fresh_world 0))
  = Ok (VDict [(py "echo", VStr (py "hello"))]).
Proof.
  eapply (proj1 (wrapper_returns_what_func_returns default_cache
    (fun text _ => ret (VDict [(py "echo", VStr text)]))
    (py "hello") (py "isl") (fresh_world 0) _ VNone
    ltac:(vm_compute; reflexivity) eq_refl)).
  reflexivity.
Defined.

(** X8. Nothing is stored unless the result says so: when the wrapped
    function raises, or returns a dictionary whose [success] is missing or
    falsy, the wrapper hands that outcome on and leaves the world exactly as
    the function left it, without calling [Cache.set]. *)
Theorem wrapper_stores_nothing_on_failure (cache : TranslationCache.t)
    (func : str -> str -> M value) (text language : str)
    (st st1 : state) (v : value) :
  TranslationCache.get cache text language st = (Ok v, st1) ->
  truthy v = false ->
  (forall e st2,
     func text language st1 = (Raise e, st2) ->
     cached_translation cache func text language st = (Raise e, st2)) /\
  (forall d st2,
     func text language st1 = (Ok (VDict d), st2) ->
     success_flag d = false ->
     cached_translation cache func text language st = (Ok (VDict d), st2)).
Proof.
  intros Hget Hfalsy.
  rewrite (wrapper_miss cache func text language st st1 v Hget Hfalsy).
  split.
  - intros e st2 ->. reflexivity.
  - intros d st2 -> Hflag. cbn [method_get]. unfold success_flag in Hflag.
    rewrite Hflag. reflexivity.
Qed.

Lemma wrapper_stores_nothing_on_failure_witness :
  let run :=
    cached_translation default_cache
      (fun _ _ => ret (VDict [(py "success", VBool false)]))
      (py "hello") (py "isl") (fresh_world 0) in
  fst run = Ok (VDict [(py "success", VBool false)]) /\
  files (snd run) = ∅.
Proof.
  cbv zeta.
  rewrite (proj2 (wrapper_stores_nothing_on_failure default_cache
    (fun _ _ => ret (VDict [(py "success", VBool false)]))
    (py "hello") (py "isl") (fresh_world 0) _ VNone
    ltac:(vm_compute; reflexivity) eq_refl) _ _ eq_refl eq_refl).
  split; reflexivity.
Defined.

(** X6. A stored result is served again.  When a miss is followed by a
    result with a truthy [success] and the write is accepted, the entry on
    disk is that result; and the next call for the same text and language,
    made while the age of the entry as the code computes it, a float
    difference, is below 86400, returns the same result from the cache,
    whatever function is wrapped: the function is not called and no file
    changes. *)
Theorem stored_result_is_served_again (cache : TranslationCache.t)
    (func : str -> str -> M value) (text language key : str)
    (st st1 st2 : state) (v : value) (d : list (str * value)) (age : Q) :
  TranslationCache.get_cache_key text language = Ok key ->
  TranslationCache.get cache text language st = (Ok v, st1) ->
  truthy v = false ->
  func text language st1 = (Ok (VDict d), st2) ->
  success_flag d = true ->
  let cache_file := TranslationCache.cache_file_of cache key in
  let entry := FPickle (cache_entry (VDict d) (clock st2 (ticks st2))) in
  write_error st2 cache_file entry = None ->
  let st3 := snd (cached_translation cache func text language st) in
  float_sub (clock st3 (ticks st3)) (VNum (clock st2 (ticks st2))) = Ok age ->
  (age < 86400)%Q ->
  cached_translation cache func text language st = (Ok (VDict d), st3) /\
  files st3 = <[cache_file := entry]> (files st2) /\
  forall func',
    cached_translation cache func' text language st3
    = (Ok (VDict d), ticked (logged_get text language st3)).
Proof.
  intros Hkey Hget Hfalsy Hfunc Hflag cache_file entry Hw st3.
  assert (Hrun : cached_translation cache func text language st
                 = (Ok (VDict d),
                    set_files (<[cache_file := entry]> (files st2))
                      (ticked (set_trace
                         (trace st2 ++ [EvSet text language (VDict d)])
                         st2)))).
  { rewrite (wrapper_miss cache func text language st st1 v Hget Hfalsy),
      Hfunc.
    cbn [method_get]. unfold success_flag in Hflag. rewrite Hflag.
    rewrite (set_stores cache text language key Hkey st2 _ Hw).
    reflexivity. }
  subst st3. rewrite Hrun. cbn [snd]. intros Hsub Hage.
  split; [reflexivity|]. split; [reflexivity|]. intros func'.
  unfold cached_translation, bind.
  rewrite (get_pickle cache text language key Hkey _
             (cache_entry (VDict d) (clock st2 (ticks st2)))).
  2:{ cbn [files set_files]. apply lookup_insert_eq. }
  rewrite fresh_result_entry.
  apply Qltb_lt in Hage. unfold TTL.
  cbn [clock ticks set_files ticked set_ticks set_trace] in Hsub |- *.
  rewrite Hsub, Hage. cbn [from_option]. unfold id.
  rewrite (success_flag_nonempty d Hflag). reflexivity.
Qed.

Lemma stored_result_is_served_again_witness :
  let translate :=
    SignLanguageTranslator.translate (H := AsciiTables.tables)
      (H0 := ToyNLTK.lexicon) in
  let first :=
    cached_translation default_cache translate (py "I eat rice") (py "asl")
      (fresh_world 0) in
  fst (cached_translation default_cache (fun _ _ => raise
         SignLanguageTranslator.unsupported_language)
         (py "I eat rice") (py "asl") (snd first))
  = fst first.
Proof.
  intros translate first.
  pose (st0 := fresh_world 0).
  pose (st1 := logged_get (py "I eat rice") (py "asl") st0).
  pose (d := [(py "success", VBool true);
              (py "video_path", VStr (py "asl_1.mp4"));
              (py "asl_gloss", VStr (py "I EAT RICE"));
              (py "processing_time", VNum (2 - 0))]).
  destruct (stored_result_is_served_again default_cache translate
              (py "I eat rice") (py "asl")
              (MD5.hexdigest (py "I eat rice_asl")) st0 st1
              (snd (translate (py "I eat rice") (py "asl") st1)) VNone d
              1%Q)
    as (Hfirst & _ & Hsecond).
  - reflexivity.
  - vm_compute. reflexivity.
  - reflexivity.
  - vm_compute. reflexivity.
  - reflexivity.
  - reflexivity.
  - vm_compute. reflexivity.
  - reflexivity.
  - subst first. rewrite Hsecond, Hfirst. reflexivity.
Defined.

(** ** The gloss composer and the renderers *)

Section ComposerOrder.
Context `{Unicode}.

Lemma partition_of_none (c : category) (pos_tags : list (str * str)) :
  Forall (fun tp => category_of (snd tp) <> c) pos_tags ->
  partition_of c pos_tags = [].
Proof.
  unfold partition_of. induction 1 as [|tp l Htp _ IH]; [reflexivity|].
  cbn [List.filter]. destruct (category_of (snd tp)), c;
    try (exfalso; apply Htp; reflexivity); exact IH.
Qed.

Lemma rank_excludes (tp : str * str) (rest : list (str * str))
    (c : category) :
  Forall (fun tp' => (tag_rank tp <= tag_rank tp')%nat) rest ->
  (category_rank c < tag_rank tp)%nat ->
  Forall (fun tp' => category_of (snd tp') <> c) rest.
Proof.
  intros Hle Hlt. eapply Forall_impl; [exact Hle|].
  intros tp' Hr Heq. unfold tag_rank in Hr, Hlt. rewrite Heq in Hr. lia.
Qed.

End ComposerOrder.

(** X10. Tagged tokens that already come in Subject-Object-Verb-Other order
    are not reordered: the gloss sequence is their upper-cased tokens, one
    for one.  In particular a sentence holding a single category keeps its
    word order. *)
Theorem sov_ordered_input_is_kept `{Unicode} (tokens : list str)
    (pos_tags : list (str * str)) :
  in_sov_order pos_tags ->
  ISLProcessor.convert_to_isl_structure tokens pos_tags
  = List.map (fun tp => str_upper (fst tp)) pos_tags.
Proof.
  rewrite convert_is_concatenation.
  induction pos_tags as [|tp rest IH]; [reflexivity|].
  intros [Hhead Hrest]. specialize (IH Hrest).
  cbn [List.map]. rewrite <- IH. clear IH.
  assert (Hcase : forall c, (category_rank c < tag_rank tp)%nat ->
            partition_of c (tp :: rest) = [] /\ partition_of c rest = []).
  { intros c Hc.
    pose proof (partition_of_none c rest (rank_excludes tp rest c Hhead Hc))
      as Hnil.
    split; [|exact Hnil]. unfold partition_of in *. cbn [List.filter].
    unfold tag_rank in Hc.
    destruct (category_of (snd tp)), c; cbn in Hc; try lia; exact Hnil. }
  unfold tag_rank in Hcase.
  destruct (category_of (snd tp)) eqn:Hcat; cbn [category_rank] in Hcase.
  - unfold partition_of. cbn [List.filter]. rewrite Hcat. reflexivity.
  - destruct (Hcase SUBJECT ltac:(cbn; lia)) as [-> ->].
    unfold partition_of. cbn [List.filter]. rewrite Hcat. reflexivity.
  - destruct (Hcase SUBJECT ltac:(cbn; lia)) as [-> ->].
    destruct (Hcase OBJECT ltac:(cbn; lia)) as [-> ->].
    unfold partition_of. cbn [List.filter]. rewrite Hcat. reflexivity.
  - destruct (Hcase SUBJECT ltac:(cbn; lia)) as [-> ->].
    destruct (Hcase OBJECT ltac:(cbn; lia)) as [-> ->].
    destruct (Hcase VERB ltac:(cbn; lia)) as [-> ->].
    unfold partition_of. cbn [List.filter]. rewrite Hcat. reflexivity.
Qed.

Lemma sov_ordered_input_is_kept_witness :
  ISLProcessor.convert_to_isl_structure (H := AsciiTables.tables) []
    [(py "i", py "PRP"); (py "rice", py "NN"); (py "eat", py "VBP");
     (py "slowly", py "RB")]
  = [py "I"; py "RICE"; py "EAT"; py "SLOWLY"].
Proof.
  rewrite (@sov_ordered_input_is_kept AsciiTables.tables).
  - reflexivity.
  - cbn. repeat split; repeat constructor.
Defined.

Lemma str_of_uint_inj (u u' : Decimal.uint) :
  str_of_uint u = str_of_uint u' -> u = u'.
Proof.
  revert u'. induction u as [|u IH|u IH|u IH|u IH|u IH|u IH|u IH|u IH|u IH|u IH];
    intros [|v|v|v|v|v|v|v|v|v|v]; cbn [str_of_uint]; intros Heq;
    try discriminate Heq; try reflexivity;
    injection Heq as Heq; f_equal; apply IH, Heq.
Qed.

Lemma str_of_int_inj (n n' : Z) : str_of_int n = str_of_int n' -> n = n'.
Proof.
  unfold str_of_int. intros Heq. apply DecimalZ.to_int_inj.
  destruct (Z.to_int n) as [u|u], (Z.to_int n') as [u'|u'].
  - f_equal. apply str_of_uint_inj, Heq.
  - exfalso. pose proof (str_of_uint_digits u) as Hd. rewrite Heq in Hd.
    apply Forall_cons in Hd as [Hd _]. unfold is_digit in Hd. lia.
  - exfalso. pose proof (str_of_uint_digits u') as Hd. rewrite <- Heq in Hd.
    apply Forall_cons in Hd as [Hd _]. unfold is_digit in Hd. lia.
  - f_equal. injection Heq as Heq. apply str_of_uint_inj, Heq.
Qed.

Lemma video_file_name_inj (prefix : str) (t t' : Q) :
  video_file_name (asset_id prefix t) = video_file_name (asset_id prefix t')
  <-> py_int t = py_int t'.
Proof.
  unfold video_file_name, asset_id. split.
  - intros Heq. apply app_inv_tail in Heq. apply app_inv_head in Heq.
    apply app_inv_head in Heq. apply str_of_int_inj, Heq.
  - intros ->. reflexivity.
Qed.

Lemma generate_isl_video_name (tokens : list str) (st : state) (name : str) :
  fst (ISLProcessor.generate_isl_video tokens st) = Ok name ->
  name = video_file_name (asset_id (py "isl") (clock st (ticks st))).
Proof.
  rewrite generate_isl_video_run.
  destruct (write_error st _ _) as [[e|e]|]; cbn [fst]; congruence.
Qed.

Lemma generate_asl_video_name (tokens : list str) (st : state) (name : str) :
  fst (ASLProcessor.generate_asl_video tokens st) = Ok name ->
  name = video_file_name (asset_id (py "asl") (clock st (ticks st))).
Proof.
  rewrite generate_asl_video_run.
  destruct (write_error st _ _) as [[e|e]|]; cbn [fst]; congruence.
Qed.

(** X12. Names tell whole seconds and languages apart: two names produced by
    the same renderer are equal exactly when the two generation times fall
    in the same whole second, and a name produced by the ISL renderer is
    never one produced by the ASL renderer. *)
Theorem asset_names_identify_second_and_language
    (tokens1 tokens2 tokens3 : list str) (st1 st2 st3 : state)
    (isl1 isl2 asl3 : str) :
  fst (ISLProcessor.generate_isl_video tokens1 st1) = Ok isl1 ->
  fst (ISLProcessor.generate_isl_video tokens2 st2) = Ok isl2 ->
  fst (ASLProcessor.generate_asl_video tokens3 st3) = Ok asl3 ->
  (isl1 = isl2 <->
   py_int (clock st1 (ticks st1)) = py_int (clock st2 (ticks st2))) /\
  isl1 <> asl3.
Proof.
  intros H1 H2 H3.
  apply generate_isl_video_name in H1, H2. apply generate_asl_video_name in H3.
  subst. split; [apply video_file_name_inj|]. discriminate.
Qed.

Lemma asset_names_identify_second_and_language_witness :
  (py "isl_10.mp4" = py "isl_11.mp4" <-> py_int 10 = py_int 11) /\
  py "isl_10.mp4" <> py "asl_0.mp4".
Proof.
  apply (asset_names_identify_second_and_language [] [] []
           (fresh_world 10) (fresh_world 11) (fresh_world 0)
           (py "isl_10.mp4") (py "isl_11.mp4") (py "asl_0.mp4")).
  - vm_compute. reflexivity.
  - vm_compute. reflexivity.
  - vm_compute. reflexivity.
Defined.

(** X13. Within one whole second the names clash: a second ISL rendering
    gets the same name as the first and overwrites its placeholder, so only
    the second description is left on disk. *)
Theorem same_second_renderings_overwrite (tokens1 tokens2 : list str)
    (st : state) :
  (forall p c, write_error st p c = None) ->
  py_int (clock st (ticks st)) = py_int (clock st (S (ticks st))) ->
  let id := asset_id (py "isl") (clock st (ticks st)) in
  let first := ISLProcessor.generate_isl_video tokens1 st in
  let second := ISLProcessor.generate_isl_video tokens2 (snd first) in
  fst first = Ok (id ++ py ".mp4") /\
  fst second = Ok (id ++ py ".mp4") /\
  files (snd second)
  = <[UPLOAD_FOLDER ++ py "/" ++ id ++ py ".txt"
      := FText (py "ISL Signs: " ++ str_join (py " -> ") tokens2)]>
      (files st).
Proof.
  intros Hw Hsec id first second. subst first second.
  rewrite (generate_isl_video_run tokens1 st), Hw. cbn [fst snd].
  rewrite generate_isl_video_run.
  cbn [clock ticks write_error files set_files ticked set_ticks].
  rewrite Hw.
  assert (Hid : asset_id (py "isl") (clock st (S (ticks st))) = id).
  { unfold id, asset_id. rewrite Hsec. reflexivity. }
  rewrite Hid. cbn [fst snd files set_files].
  split; [reflexivity|]. split; [reflexivity|].
  apply insert_insert_eq.
Qed.

Lemma same_second_renderings_overwrite_witness :
  let st := State ∅ (fun _ _ => None)
                  (fun k => (1699999999 + inject_Z (Z.of_nat k) / 4)%Q) 0 [] in
  let first := ISLProcessor.generate_isl_video [py "ONE"] st in
  let second := ISLProcessor.generate_isl_video [py "TWO"] (snd first) in
  map_to_list (files (snd second))
  = [(py "static/videos/isl_1699999999.txt", FText (py "ISL Signs: TWO"))].
Proof.
  intros st first second.
  destruct (same_second_renderings_overwrite [py "ONE"] [py "TWO"] st
              (fun _ _ => eq_refl) eq_refl) as (_ & _ & Hfiles).
  fold first second in Hfiles. rewrite Hfiles. reflexivity.
Defined.

(** ** What a translation leaves behind *)

Lemma upload_join (c : Z) (name : str) :
  c <> 47 ->
  os_path_join UPLOAD_FOLDER (c :: name) = UPLOAD_FOLDER ++ py "/" ++ c :: name.
Proof.
  intros Hc. unfold os_path_join. cbn [startswith py].
  change (Z.of_N (N_of_ascii "/")) with 47.
  destruct (Z.eqb_spec c 47); [contradiction|]. reflexivity.
Qed.

Section Outcomes.
Context `{Unicode} `{NLTK}.

(** The ways a pipeline run can end: an exception with every file as it
    was, or with the placeholder holding what a write that failed after the
    file was opened left of the description; or the result dictionary with
    the placeholder of the returned name written. *)
Lemma process_text_to_isl_outcome (text : str) (st : state) :
  exists st', trace st' = trace st /\
    ((exists e,
        ISLProcessor.process_text_to_isl text st = (Raise e, st') /\
        (files st' = files st \/
         exists id tokens done,
           files st' = <[placeholder_path id
                         := left_behind (sign_text (py "ISL") tokens) done]>
                         (files st))) \/
     (exists t tokens processing_time,
        ISLProcessor.process_text_to_isl text st
        = (Ok (VDict
                 [(py "video_path",
                   VStr (video_file_name (asset_id (py "isl") t)));
                  (py "isl_gloss", VStr (str_join (py " ") tokens));
                  (py "processing_time", VNum processing_time)]), st') /\
        files st'
        = <[placeholder_path (asset_id (py "isl") t)
            := sign_text (py "ISL") tokens]> (files st))).
Proof.
  destruct (ISLProcessor.process_text_to_isl text st) as [r st'] eqn:Hproc.
  exists st'. revert Hproc.
  unfold ISLProcessor.process_text_to_isl, bind, lift.
  unfold time_time at 1.
  destruct (ISLProcessor.tokenize_text text) as [tokens|e].
  2:{ intros [= <- <-]. split; [reflexivity|]. left. eauto. }
  destruct (ISLProcessor.pos_tag tokens) as [pos_tags|e].
  2:{ intros [= <- <-]. split; [reflexivity|]. left. eauto. }
  rewrite generate_isl_video_run.
  cbn [clock ticks write_error files set_ticks].
  destruct (write_error st _ _) as [[e|e done]|].
  - intros [= <- <-]. split; [reflexivity|]. left. eauto.
  - intros [= <- <-]. split; [reflexivity|]. left.
    eexists. split; [reflexivity|]. right. eexists _, _, _. reflexivity.
  - unfold time_time, ret. intros [= <- <-]. split; [reflexivity|].
    right. eexists _, _, _. split; reflexivity.
Qed.

Lemma process_text_to_asl_outcome (text : str) (st : state) :
  exists st', trace st' = trace st /\
    ((exists e,
        ASLProcessor.process_text_to_asl text st = (Raise e, st') /\
        (files st' = files st \/
         exists id tokens done,
           files st' = <[placeholder_path id
                         := left_behind (sign_text (py "ASL") tokens) done]>
                         (files st))) \/
     (exists t tokens processing_time,
        ASLProcessor.process_text_to_asl text st
        = (Ok (VDict
                 [(py "video_path",
                   VStr (video_file_name (asset_id (py "asl") t)));
                  (py "asl_gloss", VStr (str_join (py " ") tokens));
                  (py "processing_time", VNum processing_time)]), st') /\
        files st'
        = <[placeholder_path (asset_id (py "asl") t)
            := sign_text (py "ASL") tokens]> (files st))).
Proof.
  destruct (ASLProcessor.process_text_to_asl text st) as [r st'] eqn:Hproc.
  exists st'. revert Hproc.
  unfold ASLProcessor.process_text_to_asl, bind.
  unfold time_time at 1.
  rewrite generate_asl_video_run.
  cbn [clock ticks write_error files set_ticks].
  destruct (write_error st _ _) as [[e|e done]|].
  - intros [= <- <-]. split; [reflexivity|]. left. eauto.
  - intros [= <- <-]. split; [reflexivity|]. left.
    eexists. split; [reflexivity|]. right. eexists _, _, _. reflexivity.
  - unfold time_time, ret. intros [= <- <-]. split; [reflexivity|].
    right. eexists _, _, _. split; reflexivity.
Qed.

End Outcomes.

Lemma asset_paths (c : Z) (prefix : str) (t : Q) :
  Forall (fun c => c <> 46) (c :: prefix) -> c <> 47 ->
  let id := asset_id (c :: prefix) t in
  os_path_join UPLOAD_FOLDER (id ++ py ".txt") = placeholder_path id /\
  placeholder_path id <> os_path_join UPLOAD_FOLDER (video_file_name id).
Proof.
  intros Hp Hc id. destruct (asset_id_shape c prefix t Hp Hc) as [Hdots Hhead].
  destruct (placeholder_path_of_video id Hdots Hhead) as [Hjoin _].
  split.
  - unfold id, asset_id. cbn [app]. rewrite upload_join by exact Hc.
    reflexivity.
  - rewrite Hjoin. apply placeholder_differs_from_video.
Qed.

Section OutcomeTheorems.
Context `{Unicode} `{NLTK}.

Lemma isl_translate_outcome (text : str) (st : state) :
  translation_outcome (py "ISL") st
    (fst (ISLProcessor.translate text st))
    (snd (ISLProcessor.translate text st)).
Proof.
  destruct (process_text_to_isl_outcome text st)
    as (st' & Htrace & [(e & Hproc & Hfiles)
                       | (t & tokens & pt & Hproc & Hfiles)]).
  - rewrite (isl_translate_failure text st st' e Hproc). cbn [fst snd].
    split; [exact Htrace|]. eexists. split; [reflexivity|]. left.
    split; [reflexivity|]. split; [eexists; reflexivity|exact Hfiles].
  - assert (Htr : ISLProcessor.translate text st
                  = (Ok (VDict
                      [(py "success", VBool true);
                       (py "video_path",
                        VStr (video_file_name (asset_id (py "isl") t)));
                       (py "isl_gloss", VStr (str_join (py " ") tokens));
                       (py "processing_time", VNum pt)]), st')).
    { unfold ISLProcessor.translate, try_except, bind. rewrite Hproc.
      reflexivity. }
    rewrite Htr. cbn [fst snd]. split; [exact Htrace|].
    eexists. split; [reflexivity|]. right. split; [reflexivity|].
    exists (asset_id (py "isl") t), tokens.
    split; [reflexivity|]. split; [exact Hfiles|].
    apply (asset_paths 105 (py "sl") t);
      [vm_compute; repeat constructor; discriminate | discriminate].
Qed.

Lemma asl_translate_outcome (text : str) (st : state) :
  translation_outcome (py "ASL") st
    (fst (ASLProcessor.translate text st))
    (snd (ASLProcessor.translate text st)).
Proof.
  destruct (process_text_to_asl_outcome text st)
    as (st' & Htrace & [(e & Hproc & Hfiles)
                       | (t & tokens & pt & Hproc & Hfiles)]).
  - rewrite (asl_translate_failure text st st' e Hproc). cbn [fst snd].
    split; [exact Htrace|]. eexists. split; [reflexivity|]. left.
    split; [reflexivity|]. split; [eexists; reflexivity|exact Hfiles].
  - assert (Htr : ASLProcessor.translate text st
                  = (Ok (VDict
                      [(py "success", VBool true);
                       (py "video_path",
                        VStr (video_file_name (asset_id (py "asl") t)));
                       (py "asl_gloss", VStr (str_join (py " ") tokens));
                       (py "processing_time", VNum pt)]), st')).
    { unfold ASLProcessor.translate, try_except, bind. rewrite Hproc.
      reflexivity. }
    rewrite Htr. cbn [fst snd]. split; [exact Htrace|].
    eexists. split; [reflexivity|]. right. split; [reflexivity|].
    exists (asset_id (py "asl") t), tokens.
    split; [reflexivity|]. split; [exact Hfiles|].
    apply (asset_paths 97 (py "sl") t);
      [vm_compute; repeat constructor; discriminate | discriminate].
Qed.

Lemma translate_outcome (text language : str) (st : state) :
  let run := SignLanguageTranslator.translate text language st in
  run = (Raise SignLanguageTranslator.unsupported_language, st) \/
  translation_outcome (py "ISL") st (fst run) (snd run) \/
  translation_outcome (py "ASL") st (fst run) (snd run).
Proof.
  unfold SignLanguageTranslator.translate.
  destruct (str_eqb (str_lower language) (py "isl")).
  - right. left. apply isl_translate_outcome.
  - destruct (str_eqb (str_lower language) (py "asl")).
    + right. right. apply asl_translate_outcome.
    + left. reflexivity.
Qed.

End OutcomeTheorems.

(** X9. What [translate] does to the world.  It never calls the cache.  For
    a language whose lower-cased form is "isl" or "asl" it returns a
    dictionary: either a failed result with an error message, and then no
    file has changed or one placeholder [static/videos/{id}.txt] holds what
    a write that failed after the file was opened left of the description
    (nothing, a prefix, broken data, all of it); or a successful result
    naming a video [{id}.mp4], and then exactly the placeholder
    [static/videos/{id}.txt] has been written, with the [ISL Signs]/[ASL
    Signs] description of the processor chosen. *)
Theorem translate_writes_placeholder_iff_success `{Unicode} `{NLTK}
    (text language : str) (st : state) :
  let run := SignLanguageTranslator.translate text language st in
  (str_lower language = py "isl" ->
   translation_outcome (py "ISL") st (fst run) (snd run)) /\
  (str_lower language = py "asl" ->
   translation_outcome (py "ASL") st (fst run) (snd run)) /\
  trace (snd run) = trace st.
Proof.
  intros run. split; [|split].
  - intros Hisl. subst run. unfold SignLanguageTranslator.translate.
    rewrite Hisl. apply isl_translate_outcome.
  - intros Hasl. subst run. unfold SignLanguageTranslator.translate.
    rewrite Hasl. apply asl_translate_outcome.
  - destruct (translate_outcome text language st)
      as [Hraise | [[Htrace _] | [Htrace _]]].
    + subst run. rewrite Hraise. reflexivity.
    + exact Htrace.
    + exact Htrace.
Qed.

Lemma translate_writes_placeholder_iff_success_witness :
  let run :=
    SignLanguageTranslator.translate (H := AsciiTables.tables)
      (H0 := ToyNLTK.lexicon) (py "I eat rice") (py "ASL")
      (full_disk_world ∅ 0) in
  translation_outcome (py "ASL") (full_disk_world ∅ 0) (fst run) (snd run) /\
  files (snd run) = {[ py "static/videos/asl_1.txt" := FText [] ]}.
Proof.
  split.
  - apply (proj1 (proj2 (@translate_writes_placeholder_iff_success
      AsciiTables.tables ToyNLTK.lexicon (py "I eat rice") (py "ASL")
      (full_disk_world ∅ 0)))).
    reflexivity.
  - vm_compute. reflexivity.
Defined.

(** ** Serving what was rendered *)

Lemma serve_video_run (filename : str) (st : state) :
  serve_video filename st
  = match files st !! os_path_join UPLOAD_FOLDER filename with
    | Some content => (Ok (SentFile content), st)
    | None => (Ok (Text (py "Video not found") 404), st)
    end.
Proof. reflexivity. Qed.

(** X11. The name a successful translation returns cannot be fetched.  The
    [video_path] of the result is [{id}.mp4]; unless a file of that name was
    in the upload folder before, [serve_video] answers it with
    "Video not found", 404.  What was rendered is served under the name
    [{id}.txt] instead. *)
Theorem returned_video_is_not_served `{Unicode} `{NLTK}
    (text language : str) (st st' : state) (d : list (str * value)) :
  SignLanguageTranslator.translate text language st = (Ok (VDict d), st') ->
  dict_lookup d (py "success") = Some (VBool true) ->
  exists id description,
    dict_lookup d (py "video_path") = Some (VStr (id ++ py ".mp4")) /\
    (files st !! os_path_join UPLOAD_FOLDER (id ++ py ".mp4") = None ->
     serve_video (id ++ py ".mp4") st'
     = (Ok (Text (py "Video not found") 404), st')) /\
    serve_video (id ++ py ".txt") st'
    = (Ok (SentFile (FText description)), st').
Proof.
  intros Hrun Hsuccess.
  assert (Hout : exists label,
            translation_outcome label st (Ok (VDict d)) st').
  { destruct (translate_outcome text language st) as [Hraise | [Ho | Ho]];
      rewrite Hrun in *; cbn [fst snd] in *;
      [discriminate | eauto | eauto]. }
  destruct Hout as (label & _ & d' & Hd & Hcases).
  injection Hd as <-.
  destruct Hcases as [[Hfail _] | [_ Hok]]; [congruence|].
  destruct Hok as (id & tokens & Hname & Hfiles & Htxt & Hne).
  exists id. eexists. split; [exact Hname|]. split.
  - intros Habsent. rewrite serve_video_run, Hfiles.
    fold (video_file_name id). rewrite lookup_insert_ne by exact Hne.
    fold (video_file_name id) in Habsent. rewrite Habsent. reflexivity.
  - rewrite serve_video_run, Htxt, Hfiles, lookup_insert_eq. reflexivity.
Qed.

Lemma returned_video_is_not_served_witness :
  let st := fresh_world 0 in
  let run :=
    SignLanguageTranslator.translate (H := AsciiTables.tables)
      (H0 := ToyNLTK.lexicon) (py "I eat rice") (py "isl") st in
  exists id description,
    serve_video (id ++ py ".mp4") (snd run)
    = (Ok (Text (py "Video not found") 404), snd run) /\
    serve_video (id ++ py ".txt") (snd run)
    = (Ok (SentFile (FText description)), snd run).
Proof.
  intros st run.
  destruct (@returned_video_is_not_served AsciiTables.tables ToyNLTK.lexicon
              (py "I eat rice") (py "isl") st (snd run)
              [(py "success", VBool true);
               (py "video_path", VStr (py "isl_1.mp4"));
               (py "isl_gloss", VStr (py "I RICE EAT"));
               (py "processing_time", VNum (2 - 0))])
    as (id & description & _ & Hmp4 & Htxt).
  - vm_compute. reflexivity.
  - reflexivity.
  - exists id, description. split; [|exact Htxt].
    apply Hmp4. apply lookup_empty.
Defined.

(** ** Blank input to the ASL processor *)

Lemma split_go_blank `{Unicode} (s : str) :
  Forall (fun c => chr_isspace c = true) s -> split_go [] s = [].
Proof.
  induction 1 as [|c s Hc _ IH]; [reflexivity|].
  cbn [split_go]. rewrite Hc. exact IH.
Qed.

(** X14. A text that is empty or all white space (after lower-casing) is not
    an error for the ASL processor: when the placeholder can be written the
    result is successful, its gloss is the empty string, and the placeholder
    holds the bare heading "ASL Signs: ". *)
Theorem asl_blank_text_gives_empty_gloss `{Unicode} (text : str)
    (st : state) :
  Forall (fun c => chr_isspace c = true) (str_lower text) ->
  (forall p c, write_error st p c = None) ->
  let id := asset_id (py "asl") (clock st (S (ticks st))) in
  exists st' processing_time,
    ASLProcessor.translate text st
    = (Ok (VDict [(py "success", VBool true);
                  (py "video_path", VStr (id ++ py ".mp4"));
                  (py "asl_gloss", VStr []);
                  (py "processing_time", VNum processing_time)]), st') /\
    files st' !! (UPLOAD_FOLDER ++ py "/" ++ id ++ py ".txt")
    = Some (FText (py "ASL Signs: ")).
Proof.
  intros Hblank Hw id.
  unfold ASLProcessor.translate, try_except, bind,
    ASLProcessor.process_text_to_asl, bind.
  unfold time_time at 1. unfold str_split.
  rewrite (split_go_blank _ Hblank). cbn [List.filter List.map].
  rewrite generate_asl_video_run.
  cbn [clock ticks write_error files set_ticks]. rewrite Hw.
  unfold time_time, ret, lift. cbn [method_get].
  eexists _, _. split; [reflexivity|].
  cbn [files set_files set_ticks ticked]. apply lookup_insert_eq.
Qed.

Lemma asl_blank_text_gives_empty_gloss_witness :
  exists d,
    fst (ASLProcessor.translate (H := AsciiTables.tables) (py "  ")
           (fresh_world 0)) = Ok (VDict d) /\
    dict_lookup d (py "asl_gloss") = Some (VStr []).
Proof.
  destruct (@asl_blank_text_gives_empty_gloss AsciiTables.tables (py "  ")
              (fresh_world 0) ltac:(repeat constructor)
              (fun _ _ => eq_refl)) as (st' & pt & Hrun & _).
  eexists. rewrite Hrun. split; reflexivity.
Defined.

(** ** The routes *)

Section RouteFacts.
Context `{Unicode} `{NLTK}.

(** The route on a body that is a dictionary with a string under "text" and
    a string, or nothing, under "language". *)
Lemma translate_text_well_typed (d : list (str * value)) (s : str)
    (language : str) (st : state) :
  dict_lookup d (py "text") = Some (VStr s) ->
  default (VStr (py "isl")) (dict_lookup d (py "language")) = VStr language ->
  translate_text (VDict d) st
  = if str_eqb (str_strip s) [] then
      (Ok (Json (error_body (py "Empty text provided")) 400), st)
    else
      match SignLanguageTranslator.translate (str_strip s)
              (str_lower language) st with
      | (Ok result, st') => (Ok (Json result 200), st')
      | (Raise e, st') => (Ok (Json (error_body (exn_msg e)) 500), st')
      end.
Proof.
  intros Htext Hlang.
  assert (Hd : truthy (VDict d) = true) by (destruct d; [discriminate|reflexivity]).
  unfold translate_text, bind, lift, ret, try_except.
  rewrite Hd. cbn [py_in subscript method_get_default]. rewrite Htext.
  cbn [negb method_strip]. rewrite Hlang. cbn [method_lower].
  destruct (str_eqb (str_strip s) []); [reflexivity|].
  destruct (SignLanguageTranslator.translate _ _ st) as [[result|e] st'];
    reflexivity.
Qed.

Lemma translate_isl_outcome (text language : str) (st : state) :
  str_lower language = py "isl" ->
  translation_outcome (py "ISL") st
    (fst (SignLanguageTranslator.translate text language st))
    (snd (SignLanguageTranslator.translate text language st)).
Proof.
  intros Hisl. unfold SignLanguageTranslator.translate. rewrite Hisl.
  apply isl_translate_outcome.
Qed.

Lemma translate_asl_outcome (text language : str) (st : state) :
  str_lower language = py "asl" ->
  translation_outcome (py "ASL") st
    (fst (SignLanguageTranslator.translate text language st))
    (snd (SignLanguageTranslator.translate text language st)).
Proof.
  intros Hasl. unfold SignLanguageTranslator.translate. rewrite Hasl.
  apply asl_translate_outcome.
Qed.

End RouteFacts.

(** X15. A request without a text is turned away: when the body is missing,
    empty or otherwise falsy, is a dictionary without the key "text", or is
    a string not containing "text", the route answers
    [{'error': 'No text provided'}] with status 400 and does nothing
    else. *)
Theorem translate_text_requires_text `{Unicode} `{NLTK} (data : value)
    (st : state) :
  truthy data = false \/
  (exists d, data = VDict d /\ dict_lookup d (py "text") = None) \/
  (exists s, data = VStr s /\ str_contains s (py "text") = false) ->
  translate_text data st
  = (Ok (Json (VDict [(py "error", VStr (py "No text provided"))]) 400), st).
Proof.
  unfold translate_text, bind, lift, ret.
  intros [Hfalsy | [(d & -> & Hd) | (s & -> & Hs)]].
  - rewrite Hfalsy. reflexivity.
  - destruct (truthy (VDict d)); [|reflexivity].
    cbn [py_in]. rewrite Hd. reflexivity.
  - destruct (truthy (VStr s)); [|reflexivity].
    cbn [py_in]. rewrite Hs. reflexivity.
Qed.

Lemma translate_text_requires_text_witness :
  translate_text (H := AsciiTables.tables) (H0 := ToyNLTK.lexicon)
    (VDict [(py "language", VStr (py "asl"))]) (fresh_world 0)
  = (Ok (Json (VDict [(py "error", VStr (py "No text provided"))]) 400),
     fresh_world 0).
Proof.
  apply (@translate_text_requires_text AsciiTables.tables ToyNLTK.lexicon).
  right. left. eexists. split; reflexivity.
Defined.

(** X16. A text that is empty once stripped is turned away too: for a body
    whose "text" is such a string and whose "language" is a string or
    absent, the route answers [{'error': 'Empty text provided'}] with status
    400 and does nothing else, whatever the language. *)
Theorem translate_text_rejects_blank_text `{Unicode} `{NLTK}
    (d : list (str * value)) (s language : str) (st : state) :
  dict_lookup d (py "text") = Some (VStr s) ->
  default (VStr (py "isl")) (dict_lookup d (py "language")) = VStr language ->
  str_strip s = [] ->
  translate_text (VDict d) st
  = (Ok (Json (VDict [(py "error", VStr (py "Empty text provided"))]) 400),
     st).
Proof.
  intros Htext Hlang Hblank.
  rewrite (translate_text_well_typed d s language st Htext Hlang), Hblank.
  reflexivity.
Qed.

Lemma translate_text_rejects_blank_text_witness :
  translate_text (H := AsciiTables.tables) (H0 := ToyNLTK.lexicon)
    (VDict [(py "text", VStr (py "   ")); (py "language", VStr (py "bsl"))])
    (fresh_world 0)
  = (Ok (Json (VDict [(py "error", VStr (py "Empty text provided"))]) 400),
     fresh_world 0).
Proof.
  apply (@translate_text_rejects_blank_text AsciiTables.tables
           ToyNLTK.lexicon _ (py "   ") (py "bsl")); reflexivity.
Defined.

(** X17. An unsupported language costs a 500, not a crash: for a body with a
    non-blank string under "text" and a language that is recognized neither
    after the route's nor after the translator's lower-casing, the route
    catches the [ValueError] and answers
    [{'error': "Unsupported language. Use 'isl' or 'asl'"}] with status 500;
    nothing is rendered and the world is unchanged. *)
Theorem translate_text_reports_unsupported_language `{Unicode} `{NLTK}
    (d : list (str * value)) (s language : str) (st : state) :
  dict_lookup d (py "text") = Some (VStr s) ->
  default (VStr (py "isl")) (dict_lookup d (py "language")) = VStr language ->
  str_strip s <> [] ->
  str_lower (str_lower language) <> py "isl" ->
  str_lower (str_lower language) <> py "asl" ->
  translate_text (VDict d) st
  = (Ok (Json (VDict [(py "error",
                       VStr (py "Unsupported language. Use 'isl' or 'asl'"))])
           500), st).
Proof.
  intros Htext Hlang Hs Hisl Hasl.
  rewrite (translate_text_well_typed d s language st Htext Hlang),
    (str_eqb_neq _ _ Hs),
    (translate_unsupported (str_strip s) (str_lower language) st Hisl Hasl).
  reflexivity.
Qed.

Lemma translate_text_reports_unsupported_language_witness :
  translate_text (H := AsciiTables.tables) (H0 := ToyNLTK.lexicon)
    (VDict [(py "text", VStr (py "I eat rice"));
            (py "language", VStr (py "BSL"))])
    (fresh_world 0)
  = (Ok (Json (VDict [(py "error",
                       VStr (py "Unsupported language. Use 'isl' or 'asl'"))])
           500), fresh_world 0).
Proof.
  apply (@translate_text_reports_unsupported_language AsciiTables.tables
           ToyNLTK.lexicon _ (py "I eat rice") (py "BSL"));
    (reflexivity || discriminate).
Defined.

(** X18. For a supported language the route always answers 200, also when
    the translation failed.  Given a non-blank string under "text" and a
    language recognized after lower-casing ("isl" when the body names
    none), the route translates the stripped text and answers with the
    processor's dictionary and status 200: a successful result, or a
    [{'success': False, 'error': ...}] result, and then every file is as it
    was or one placeholder [static/videos/{id}.txt] holds what a write that
    failed after the file was opened left of a description. *)
Theorem translate_text_answers_200 `{Unicode} `{NLTK}
    (d : list (str * value)) (s language : str) (st : state) :
  dict_lookup d (py "text") = Some (VStr s) ->
  default (VStr (py "isl")) (dict_lookup d (py "language")) = VStr language ->
  str_strip s <> [] ->
  str_lower (str_lower language) = py "isl" \/
  str_lower (str_lower language) = py "asl" ->
  let run :=
    SignLanguageTranslator.translate (str_strip s) (str_lower language) st in
  exists result,
    run = (Ok (VDict result), snd run) /\
    translate_text (VDict d) st = (Ok (Json (VDict result) 200), snd run) /\
    (dict_lookup result (py "success") = Some (VBool true) \/
     dict_lookup result (py "success") = Some (VBool false) /\
     (exists message,
        dict_lookup result (py "error") = Some (VStr message)) /\
     (files (snd run) = files st \/
      exists id label tokens done,
        (label = py "ISL" \/ label = py "ASL") /\
        files (snd run)
        = <[placeholder_path id
            := left_behind (sign_text label tokens) done]> (files st))).
Proof.
  intros Htext Hlang Hs Hsupported run.
  rewrite (translate_text_well_typed d s language st Htext Hlang),
    (str_eqb_neq _ _ Hs). fold run.
  assert (Hout : exists label,
            (label = py "ISL" \/ label = py "ASL") /\
            translation_outcome label st (fst run) (snd run)).
  { destruct Hsupported as [Hl | Hl].
    - exists (py "ISL"). split; [auto|]. apply translate_isl_outcome, Hl.
    - exists (py "ASL"). split; [auto|]. apply translate_asl_outcome, Hl. }
  destruct Hout as (label & Hlabel & _ & result & Hfst & Hcases).
  exists result.
  assert (Hrun : run = (Ok (VDict result), snd run)).
  { rewrite <- Hfst. apply surjective_pairing. }
  split; [exact Hrun|]. split.
  - rewrite Hrun. reflexivity.
  - destruct Hcases as [(Hfail & Hmsg & Hfiles) | (Hok & _)]; [|auto].
    right. split; [exact Hfail|]. split; [exact Hmsg|].
    destruct Hfiles as [Hsame | (id & tokens & done & Hleft)]; [auto|].
    right. exists id, label, tokens, done. split; [exact Hlabel|exact Hleft].
Qed.

Lemma translate_text_answers_200_witness :
  let run :=
    translate_text (H := AsciiTables.tables) (H0 := ToyNLTK.lexicon)
      (VDict [(py "text", VStr (py " I eat rice "))])
      (full_disk_world ∅ 0) in
  fst run
  = Ok (Json (VDict [(py "success", VBool false);
                     (py "error", VStr (py "No space left on device"))])
          200) /\
  files (snd run) = {[ py "static/videos/isl_1.txt" := FText [] ]}.
Proof.
  cbv zeta.
  destruct (@translate_text_answers_200 AsciiTables.tables ToyNLTK.lexicon
              [(py "text", VStr (py " I eat rice "))] (py " I eat rice ")
              (py "isl") (full_disk_world ∅ 0) eq_refl eq_refl
              ltac:(discriminate) (or_introl eq_refl))
    as (result & Hrun & Hroute & _).
  rewrite Hroute. cbn [fst snd].
  apply (f_equal fst) in Hrun. cbn [fst] in Hrun.
  assert (Hres : Ok (VDict result)
                 = Ok (VDict [(py "success", VBool false);
                              (py "error",
                               VStr (py "No space left on device"))]))
    by (rewrite <- Hrun; vm_compute; reflexivity).
  injection Hres as ->. split; [reflexivity|].
  vm_compute. reflexivity.
Defined.

(** X19. The route does not guard its own reading of the body: these
    exceptions are raised before the [try] block and leave the view
    function, and nothing has been done by then.  A dictionary whose "text"
    is not a string raises [AttributeError] (no [strip]); so does a
    dictionary whose "text" is a string, even a blank one, and whose
    "language" is present but not a string (no [lower]).  A body that is a
    string containing "text" raises [TypeError] (subscripted by a string),
    and so does a body that is a non-zero number or [True] (not
    iterable). *)
Theorem translate_text_raises_on_ill_typed_body `{Unicode} `{NLTK}
    (data : value) (st : state) :
  (forall d v,
     data = VDict d -> dict_lookup d (py "text") = Some v ->
     (forall s, v <> VStr s) ->
     exists e,
       translate_text data st = (Raise e, st) /\
       exn_kind e = AttributeError) /\
  (forall d s v,
     data = VDict d -> dict_lookup d (py "text") = Some (VStr s) ->
     dict_lookup d (py "language") = Some v ->
     (forall l, v <> VStr l) ->
     exists e,
       translate_text data st = (Raise e, st) /\
       exn_kind e = AttributeError) /\
  (forall s,
     data = VStr s -> str_contains s (py "text") = true ->
     exists e,
       translate_text data st = (Raise e, st) /\ exn_kind e = TypeError) /\
  (truthy data = true ->
   (exists q, data = VNum q) \/ (exists b, data = VBool b) ->
   exists e,
     translate_text data st = (Raise e, st) /\ exn_kind e = TypeError).
Proof.
  unfold translate_text, bind, lift, ret.
  split; [|split; [|split]].
  - intros d v -> Hv Hns.
    assert (Hd : truthy (VDict d) = true)
      by (destruct d; [discriminate|reflexivity]).
    rewrite Hd. cbn [py_in subscript]. rewrite Hv. cbn [negb].
    destruct v as [| b | q | s | d'];
      try (eexists; split; reflexivity).
    destruct (Hns s eq_refl).
  - intros d s v -> Hs Hv Hns.
    assert (Hd : truthy (VDict d) = true)
      by (destruct d; [discriminate|reflexivity]).
    rewrite Hd. cbn [py_in subscript method_get_default]. rewrite Hs, Hv.
    cbn [negb method_strip from_option]. unfold id.
    destruct v as [| b | q | l | d'];
      try (eexists; split; reflexivity).
    destruct (Hns l eq_refl).
  - intros s -> Hs.
    assert (Hd : truthy (VStr s) = true).
    { destruct s; [discriminate Hs|reflexivity]. }
    rewrite Hd. cbn [py_in]. rewrite Hs. cbn [negb subscript].
    eexists. split; reflexivity.
  - intros Htruthy [[q ->] | [b ->]]; rewrite Htruthy; cbn [py_in];
      eexists; split; reflexivity.
Qed.

Lemma translate_text_raises_on_ill_typed_body_witness :
  let route :=
    translate_text (H := AsciiTables.tables) (H0 := ToyNLTK.lexicon) in
  let raises (data : value) (c : exn_class) :=
    exists e,
      route data (fresh_world 0) = (Raise e, fresh_world 0) /\
      exn_kind e = c in
  raises (VDict [(py "text", VNum 5)]) AttributeError /\
  raises (VDict [(py "text", VStr (py " ")); (py "language", VNone)])
         AttributeError /\
  raises (VStr (py "some text")) TypeError /\
  raises (VNum 5) TypeError.
Proof.
  intros route raises. subst route raises. cbv beta.
  split; [|split; [|split]].
  - apply (proj1 (@translate_text_raises_on_ill_typed_body
      AsciiTables.tables ToyNLTK.lexicon _ (fresh_world 0))
      [(py "text", VNum 5)] (VNum 5) eq_refl eq_refl).
    discriminate.
  - apply (proj1 (proj2 (@translate_text_raises_on_ill_typed_body
      AsciiTables.tables ToyNLTK.lexicon _ (fresh_world 0)))
      [(py "text", VStr (py " ")); (py "language", VNone)] (py " ") VNone
      eq_refl eq_refl eq_refl).
    discriminate.
  - apply (proj1 (proj2 (proj2 (@translate_text_raises_on_ill_typed_body
      AsciiTables.tables ToyNLTK.lexicon _ (fresh_world 0))))
      (py "some text") eq_refl eq_refl).
  - apply (proj2 (proj2 (proj2 (@translate_text_raises_on_ill_typed_body
      AsciiTables.tables ToyNLTK.lexicon (VNum 5) (fresh_world 0))))
      eq_refl).
    left. eexists. reflexivity.
Defined.
